(** * The dataset catalog of geoserver: [MetadataDB] (src/geoserver/metadata.py)

    A shallow embedding of [MetadataDB.add_metadata_entry], [show_meta],
    [ds_meta_exists] and [get_ds_metadata], and the properties of the
    catalog that follow from the code.

    Python objects and effects are modelled as follows.
    - [str] is [string], a sequence of 8-bit characters; the classification
      [str.isalnum] of one character is a parameter of the development
      ([isalnum]).
    - A [dict] of column names to type names is an association list in
      insertion order; dict objects live in a heap and are passed by
      reference, so that in-place updates are seen by the caller.
    - The DuckDB file holding the catalog is a state component: the
      metadata table (absent until created), the connections opened so
      far, and the journal of the statements executed.
    - Exceptions are values; a computation returns a result together with
      the world it leaves behind, also when it raises.  An
      [InvalidColumnTypeException] carries the list of the per-column error
      lines, which Python prints after a fixed prefix.
    - Calls of [logger.info] are left out. *)

From Stdlib Require Import Ascii.
From stdpp Require Import base option list gmap strings.

(** ** Exceptions *)

Inductive exn : Type :=
  | Exception (msg : string)
  | AttributeError (msg : string)
  | TypeError (msg : string)
  | CatalogException (msg : string)
  | ConstraintException (msg : string)
  | InvalidCharacterException (msg : string)
  | InvalidColumnTypeException (col_errors : list string)
  | InvalidArgumentException (msg : string)
  | BgsAlreadyExistsException (msg : string) (cause : exn).

(** ** Strings *)

Fixpoint str_filter (p : ascii → bool) (s : string) : string :=
  match s with
  | EmptyString => EmptyString
  | String c s' => if p c then String c (str_filter p s') else str_filter p s'
  end.

Fixpoint str_mem (c : ascii) (s : string) : bool :=
  match s with
  | EmptyString => false
  | String c' s' => if Ascii.eqb c c' then true else str_mem c s'
  end.

Fixpoint str_forallb (p : ascii → bool) (s : string) : bool :=
  match s with
  | EmptyString => true
  | String c s' => p c && str_forallb p s'
  end.

(** [s.translate(str.maketrans("", "", deleted))]: drop from [s] every
    character that occurs in [deleted]. *)
Definition translate_delete (deleted : string) (s : string) : string :=
  str_filter (λ c, negb (str_mem c deleted)) s.

Fixpoint str_prefix (p s : string) : bool :=
  match p, s with
  | EmptyString, _ => true
  | String a p', String b s' => if Ascii.eqb a b then str_prefix p' s' else false
  | String _ _, EmptyString => false
  end.

(** [p in s] on Python strings. *)
Fixpoint str_contains (p s : string) : bool :=
  if str_prefix p s then true
  else match s with
       | EmptyString => false
       | String _ s' => str_contains p s'
       end.

Fixpoint str_ends_with_sep (s : string) : bool :=
  match s with
  | EmptyString => false
  | String c EmptyString => Ascii.eqb c "/"%char
  | String _ s' => str_ends_with_sep s'
  end.

(** [os.path.join(a, b)] on POSIX for a relative [b]. *)
Definition os_path_join (a b : string) : string :=
  match a with
  | EmptyString => b
  | _ => if str_ends_with_sep a then a +:+ b else a +:+ "/" +:+ b
  end.

(** The printed form of a list of strings that hold no quote, backslash
    or control character, as Python's f-strings render it. *)
Definition repr_str_list (l : list string) : string :=
  "[" +:+ String.concat ", " (map (λ s, "'" +:+ s +:+ "'") l) +:+ "]".

(** ** Dictionaries and rows *)

(** A [Dict[str, str]]: keys in insertion order. *)
Abbreviation pydict := (list (string * string)).

Definition dict_keys (d : pydict) : list string := d.*1.
Definition dict_values (d : pydict) : list string := d.*2.

(** [d[k] = v]: an existing key keeps its position, a new one is appended. *)
Fixpoint dict_setitem (k v : string) (d : pydict) : pydict :=
  match d with
  | [] => [(k, v)]
  | (k', v') :: d' =>
      if String.eqb k k' then (k', v) :: d' else (k', v') :: dict_setitem k v d'
  end.

(** The value DuckDB stores for a [MAP(VARCHAR, VARCHAR)] column. *)
Record duck_map : Type := DuckMap { key : list string; value : list string }.

(** One row of the metadata table, which is also the dictionary
    [show_meta] and [get_ds_metadata] build from it. *)
Record row : Type := Row {
  dataset_name : string;
  description : string;
  value_columns : duck_map;
  interval : string;
  dataset_type : string
}.

(** The projection [dataset_name] under a name that the parameters of the
    catalog operations not hide. *)
Definition row_name (r : row) : string := dataset_name r.

(** ** The world *)

Definition loc : Type := positive.

Record connection : Type := Connection { database : string; is_open : bool }.

Inductive stmt : Type :=
  | CheckTableExists (table_name : string)
  | CreateTable (table_name : string)
  | InsertRow (r : row)
  | SelectAll
  | SelectCount (name : string)
  | SelectByName (name : string).

Record world : Type := World {
  heap : gmap loc pydict;
  table : option (list row);
  connections : list connection;
  journal : list (nat * stmt)
}.

(** What lives in the storage engine, as opposed to the caller's objects. *)
Definition storage (w : world) : option (list row) * list connection * list (nat * stmt) :=
  (table w, connections w, journal w).

Definition set_heap (h : gmap loc pydict) (w : world) : world :=
  World h (table w) (connections w) (journal w).
Definition set_table (t : option (list row)) (w : world) : world :=
  World (heap w) t (connections w) (journal w).
Definition set_connections (cs : list connection) (w : world) : world :=
  World (heap w) (table w) cs (journal w).
Definition log_stmt (c : nat) (s : stmt) (w : world) : world :=
  World (heap w) (table w) (connections w) (journal w ++ [(c, s)]).

(** ** Computations that may raise *)

Inductive result (A : Type) : Type :=
  | Ok (a : A)
  | Raise (e : exn).
Arguments Ok {A} a.
Arguments Raise {A} e.

Definition M (A : Type) : Type := world → result A * world.

Definition ret {A} (a : A) : M A := λ w, (Ok a, w).
Definition raise {A} (e : exn) : M A := λ w, (Raise e, w).
Definition bind {A B} (m : M A) (k : A → M B) : M B :=
  λ w, match m w with
       | (Ok a, w') => k a w'
       | (Raise e, w') => (Raise e, w')
       end.

#[global] Instance M_ret : MRet M := @ret.
#[global] Instance M_bind : MBind M := λ A B k m, bind m k.

(** [try: body / except: handler / finally: fin].  [handler e] is [None]
    when no [except] clause matches [e].  The [finally] block runs on
    every path; if it raises, its exception replaces the pending outcome. *)
Definition try_except_finally {A} (body : M A)
    (handler : exn → option (M A)) (fin : M unit) : M A :=
  λ w,
    let '(r, w1) :=
      match body w with
      | (Ok a, w') => (Ok a, w')
      | (Raise e, w') =>
          match handler e with
          | Some h => h w'
          | None => (Raise e, w')
          end
      end in
    match fin w1 with
    | (Ok _, w2) => (r, w2)
    | (Raise e, w2) => (Raise e, w2)
    end.

(** ** Heap operations *)

Definition dict_read (l : loc) : M pydict :=
  λ w, match heap w !! l with
       | Some d => (Ok d, w)
       | None => (Raise (AttributeError "object is not a dict"), w)
       end.

Definition dict_store (l : loc) (k v : string) : M unit :=
  λ w, match heap w !! l with
       | Some d => (Ok tt, set_heap (<[l := dict_setitem k v d]> (heap w)) w)
       | None => (Raise (TypeError "object does not support item assignment"), w)
       end.

(** ** The storage engine

    DuckDB is an external collaborator.  The model keeps what the catalog
    relies on: a connection is opened on a database file and stays open
    until closed; the metadata table has [dataset_name] as primary key, and
    an insert of a name that is already there raises
    [ConstraintException]. *)

Definition duckdb_connect (db : string) : M nat :=
  λ w, (Ok (length (connections w)),
        set_connections (connections w ++ [Connection db true]) w).

Definition connection_close (c : nat) : M unit :=
  λ w, match connections w !! c with
       | Some cn =>
           (Ok tt, set_connections (<[c := Connection (database cn) false]> (connections w)) w)
       | None => (Ok tt, w)
       end.

Definition execute_create_table (c : nat) (table_name : string) : M unit :=
  λ w, let w := log_stmt c (CreateTable table_name) w in
       match table w with
       | Some _ => (Ok tt, w)
       | None => (Ok tt, set_table (Some []) w)
       end.

Definition execute_insert (c : nat) (r : row) : M unit :=
  λ w, let w := log_stmt c (InsertRow r) w in
       match table w with
       | None => (Raise (CatalogException "Table with name dataset_metadata does not exist!"), w)
       | Some rows =>
           if decide (dataset_name r ∈ dataset_name <$> rows)
           then (Raise (ConstraintException "Duplicate key violates primary key constraint"), w)
           else (Ok tt, set_table (Some (rows ++ [r])) w)
       end.

Definition execute_query {A} (c : nat) (s : stmt) (q : list row → A) : M A :=
  λ w, let w := log_stmt c s w in
       match table w with
       | None => (Raise (CatalogException "Table with name dataset_metadata does not exist!"), w)
       | Some rows => (Ok (q rows), w)
       end.

(** Modelled from the spec: [geoserver.utilities.duckdbutils] is not among
    the sources.  Its [duckdb_check_table_exists(connection, name)] is the
    storage adapter's [tableExists(name) -> bool] of the external
    interfaces. *)
Definition duckdb_check_table_exists (c : nat) (table_name : string) : M bool :=
  λ w, (Ok (bool_decide (is_Some (table w))), log_stmt c (CheckTableExists table_name) w).

(** ** MetadataDB *)

Definition METADATA_DB_NAME : string := "dataset_metadata".
Definition METADATA_TABLE_NAME : string := "dataset_metadata".

Definition VALID_META_INTERVALS : list string :=
  ["one_time"; "yearly"; "monthly"; "daily"].

Definition VALID_DATASET_TYPES : list string := ["h3"; "point"].

Definition reserved_name_message : string :=
  "name " +:+ METADATA_DB_NAME +:+ " is reserved,"
  +:+ " and cannot be used as a dataset name.".

Definition invalid_character_message (col_name non_al_num : string) : string :=
  "column names must be alphanumeric."
  +:+ " column name: [" +:+ col_name +:+ "] contained"
  +:+ " non-alphanumeric character(s): [" +:+ non_al_num +:+ "]".

Definition column_error_message (k error : string) : string :=
  "column " +:+ k +:+ " was found invalid for reason: " +:+ error.

Definition dataset_type_message (dataset_type : string) : string :=
  "dataset type: " +:+ dataset_type +:+ " was not valid."
  +:+ " Valid dataset types are: " +:+ repr_str_list VALID_DATASET_TYPES.

Definition interval_message (interval : string) : string :=
  "interval: " +:+ interval +:+ " was not valid."
  +:+ " Valid intervals are: " +:+ repr_str_list VALID_META_INTERVALS.

Definition already_exists_message (dataset_name : string) : string :=
  "dataset with name " +:+ dataset_name +:+ " already exists".

Definition table_missing_message : string :=
  METADATA_TABLE_NAME +:+ " table does not exist".

Definition none_not_subscriptable : string :=
  "'NoneType' object is not subscriptable".

(** ** Instances for concrete runs *)

(** ASCII letters and digits: [str.isalnum] on the code points below 128. *)
Definition ascii_isalnum (c : ascii) : bool :=
  let n := nat_of_ascii c in
  ((48 <=? n) && (n <=? 57)) || ((65 <=? n) && (n <=? 90))
  || ((97 <=? n) && (n <=? 122)).

(** Modelled from the spec: [geoserver.utilities.duckdbutils] is not among
    the sources.  TypeCanon accepts a whitelist of general type categories
    (integer, float, string, boolean, timestamp) and maps aliases to one
    canonical spelling; a name that is not recognized is rejected with an
    error text. *)
Definition type_aliases : list (string * string) :=
  [("int", "INTEGER"); ("integer", "INTEGER"); ("bigint", "BIGINT");
   ("float", "FLOAT"); ("double", "DOUBLE");
   ("str", "VARCHAR"); ("string", "VARCHAR"); ("varchar", "VARCHAR");
   ("bool", "BOOLEAN"); ("boolean", "BOOLEAN");
   ("timestamp", "TIMESTAMP");
   ("INTEGER", "INTEGER"); ("BIGINT", "BIGINT"); ("FLOAT", "FLOAT");
   ("DOUBLE", "DOUBLE"); ("VARCHAR", "VARCHAR"); ("BOOLEAN", "BOOLEAN");
   ("TIMESTAMP", "TIMESTAMP")].

Fixpoint assoc (k : string) (l : list (string * string)) : option string :=
  match l with
  | [] => None
  | (k', v) :: l' => if String.eqb k k' then Some v else assoc k l'
  end.

Definition sample_is_general_col_type (v : string) : bool * string :=
  match assoc v type_aliases with
  | Some _ => (true, "")
  | None => (false, "type " +:+ v +:+ " is not a general column type")
  end.

Definition sample_convert_to_cannonical_type (v : string) : string :=
  default v (assoc v type_aliases).

(** A world whose catalog was never created, with one dict on the heap. *)
Definition fresh_world (value_columns : pydict) : world :=
  World {[ 1%positive := value_columns ]} None [] [].

Section MetadataDB.

(** [str.isalnum] on one character. *)
Variable isalnum : ascii → bool.

(** [duckdbutils.is_general_col_type] and
    [duckdbutils.convert_to_cannonical_type]: the type whitelist and its
    alias table, which are not among the sources. *)
Variable is_general_col_type : string → bool * string.
Variable convert_to_cannonical_type : string → string.

(** [self.database_dir]. *)
Variable database_dir : string.

Definition _get_non_alphanum_chars (s : string) : string :=
  let char_to_remove := str_filter isalnum s in
  let non_alpha := translate_delete char_to_remove s in
  non_alpha.

Definition _get_db_path (db_name : string) : string :=
  os_path_join database_dir (db_name +:+ ".duckdb").

(** The loop over the column names, in [add_metadata_entry] and again in
    [get_ds_metadata]: it raises at the first name that has a character
    which is not alphanumeric. *)
Fixpoint check_column_names (col_names : list string) : M unit :=
  match col_names with
  | [] => ret tt
  | col_name :: rest =>
      let non_al_num := _get_non_alphanum_chars col_name in
      if 0 <? String.length non_al_num
      then raise (InvalidCharacterException
                    (invalid_character_message col_name non_al_num))
      else check_column_names rest
  end.

(** The loop over [value_columns.copy().items()]: a valid type is replaced
    in the caller's dict by its canonical spelling, an invalid one adds a
    line to [col_errors]. *)
Fixpoint check_column_types (value_columns : loc) (items : pydict)
    (col_errors : list string) : M (list string) :=
  match items with
  | [] => ret col_errors
  | (k, v) :: rest =>
      let '(is_valid, error) := is_general_col_type v in
      if is_valid then
        let cannonical_type := convert_to_cannonical_type v in
        dict_store value_columns k cannonical_type;;
        check_column_types value_columns rest col_errors
      else
        let full_error := column_error_message k error in
        check_column_types value_columns rest (col_errors ++ [full_error])
  end.

Definition add_metadata_entry (dataset_name description : string)
    (value_columns : loc) (interval dataset_type : string) : M string :=
  if decide (dataset_name = METADATA_DB_NAME)
  then raise (Exception reserved_name_message)
  else
    columns ← dict_read value_columns;
    check_column_names (dict_keys columns);;
    items ← dict_read value_columns;
    col_errors ← check_column_types value_columns items [];
    if 0 <? length col_errors
    then raise (InvalidColumnTypeException col_errors)
    else if negb (bool_decide (dataset_type ∈ VALID_DATASET_TYPES))
    then raise (InvalidArgumentException (dataset_type_message dataset_type))
    else if negb (bool_decide (interval ∈ VALID_META_INTERVALS))
    then raise (InvalidArgumentException (interval_message interval))
    else
      let out_db_path := _get_db_path METADATA_DB_NAME in
      connection ← duckdb_connect out_db_path;
      table_exists ← duckdb_check_table_exists connection METADATA_TABLE_NAME;
      (if negb table_exists
          then execute_create_table connection METADATA_TABLE_NAME
          else ret tt);;
      columns ← dict_read value_columns;
      let val_col_map := DuckMap (dict_keys columns) (dict_values columns) in
      try_except_finally
           (execute_insert connection
              (Row dataset_name description val_col_map interval dataset_type))
           (λ e, match e with
                 | ConstraintException _ =>
                     Some (raise (BgsAlreadyExistsException
                                    (already_exists_message dataset_name) e))
                 | _ => None
                 end)
           (connection_close connection);;
      ret dataset_name.

(** The dictionary built from a fetched row. *)
Definition row_to_dict (r : row) : row :=
  Row (dataset_name r) (description r) (value_columns r) (interval r)
      (dataset_type r).

Definition show_meta : M (list row) :=
  let out_db_path := _get_db_path METADATA_DB_NAME in
  connection ← duckdb_connect out_db_path;
  table_exists ← duckdb_check_table_exists connection METADATA_TABLE_NAME;
  if negb table_exists
  then raise (Exception table_missing_message)
  else
    result_raw ← execute_query connection SelectAll (λ rows, rows);
    ret (map row_to_dict result_raw).

Definition ds_meta_exists (dataset_name : string) : M bool :=
  let out_db_path := _get_db_path METADATA_DB_NAME in
  connection ← duckdb_connect out_db_path;
  table_exists ← duckdb_check_table_exists connection METADATA_TABLE_NAME;
  if negb table_exists
  then raise (Exception (table_missing_message
                           +:+ " in database " +:+ out_db_path))
  else
    result_raw ← execute_query connection (SelectCount dataset_name)
                    (λ rows, length (filter (λ r, row_name r = dataset_name) rows));
    ret (result_raw =? 1).

Definition get_ds_metadata (dataset_name : string) : M row :=
  let out_db_path := _get_db_path METADATA_DB_NAME in
  connection ← duckdb_connect out_db_path;
  table_exists ← duckdb_check_table_exists connection METADATA_TABLE_NAME;
  if negb table_exists
  then raise (Exception table_missing_message)
  else
    result_raw ← execute_query connection (SelectByName dataset_name)
                    (λ rows, head (filter (λ r, row_name r = dataset_name) rows));
    result ← match result_raw with
              | Some r => ret (row_to_dict r)
              | None => raise (TypeError none_not_subscriptable)
              end;
    let col_names := key (value_columns result) in
    check_column_names col_names;;
    ret result.

(** ** What the loops compute *)

Definition clean_name (col_name : string) : Prop :=
  _get_non_alphanum_chars col_name = "".

Definition valid_type (v : string) : bool := (is_general_col_type v).1.

(** The lines [col_errors] ends up with: one per invalid item, in order. *)
Definition type_errors (items : pydict) : list string :=
  omap (λ '(k, v), if valid_type v then None
                   else Some (column_error_message k (is_general_col_type v).2))
       items.

(** The dict with every valid type in its canonical spelling. *)
Definition canonicalize (d : pydict) : pydict :=
  map (λ '(k, v), (k, if valid_type v then convert_to_cannonical_type v else v)) d.

(** The assignments of the type loop, applied to a dict one after another. *)
Definition store_valid (items : pydict) (d : pydict) : pydict :=
  foldl (λ d '(k, v), if valid_type v
                      then dict_setitem k (convert_to_cannonical_type v) d
                      else d) d items.

(** A name all of whose characters are alphanumeric. *)
Definition alnum_name (col_name : string) : Prop :=
  str_forallb isalnum col_name = true.

(** The world a read operation leaves behind: its connection, still open,
    and the statements it executed on it. *)
Definition after_read (stmts : list stmt) (w : world) : world :=
  let c := length (connections w) in
  World (heap w) (table w)
        (connections w ++ [Connection (_get_db_path METADATA_DB_NAME) true])
        (journal w ++ ((λ s, (c, s)) <$> stmts)).

(** The error kinds of the validation phase of [add_metadata_entry]. *)
Definition validation_error (e : exn) : bool :=
  match e with
  | Exception _ | InvalidCharacterException _
  | InvalidColumnTypeException _ | InvalidArgumentException _ => true
  | _ => false
  end.

(** A dataset name that has a row in the metadata table. *)
Definition registered (name : string) (w : world) : Prop :=
  name ∈ dataset_name <$> default [] (table w).

(** A call of [add_metadata_entry] that passes every check. *)
Definition passes_validation (w : world) (name : string) (value_columns : loc)
    (itv dtype : string) : Prop :=
  name ≠ METADATA_DB_NAME ∧
  ∃ d, heap w !! value_columns = Some d
       ∧ Forall alnum_name (dict_keys d)
       ∧ Forall (λ v, valid_type v = true) (dict_values d)
       ∧ dtype ∈ VALID_DATASET_TYPES
       ∧ itv ∈ VALID_META_INTERVALS.

(** A row as [add_metadata_entry] stores them: the name is not the
    reserved one, the column names are alphanumeric, there is one type per
    column, and dataset type and interval are recognized. *)
Definition well_formed_row (r : row) : Prop :=
  dataset_name r ≠ METADATA_DB_NAME
  ∧ Forall alnum_name (key (value_columns r))
  ∧ length (key (value_columns r)) = length (value (value_columns r))
  ∧ dataset_type r ∈ VALID_DATASET_TYPES
  ∧ interval r ∈ VALID_META_INTERVALS.

End MetadataDB.

(** The rows of the metadata table; none while the table is absent. *)
Definition catalog_rows (w : world) : list row := default [] (table w).

(** The connections of a world that are open. *)
Definition open_connections (w : world) : list connection :=
  filter (λ cn, is_open cn = true) (connections w).

(** * The command-line client: [CliExecGeospatial]
      (src/geoserver/cliexec_geospatial.py)

    The operations that query the server build the body of the request, a
    dict, and the path of the service, and hand both to
    [httputils.httprequest]. *)

(** [d[k] = v] and [d.get(k)] on a dict with values of any type. *)
Fixpoint setitem {V} (k : string) (v : V) (d : list (string * V)) :
    list (string * V) :=
  match d with
  | [] => [(k, v)]
  | (k', v') :: d' =>
      if String.eqb k k' then (k', v) :: d' else (k', v') :: setitem k v d'
  end.

Fixpoint getitem {V} (k : string) (d : list (string * V)) : option V :=
  match d with
  | [] => None
  | (k', v') :: d' => if String.eqb k k' then Some v' else getitem k d'
  end.

Section Client.

(** Python's [float]: the client passes these values on and computes
    nothing with them. *)
Variable float : Type.

(** The values of a request body. *)
Inductive pyval : Type :=
  | PyStr (s : string)
  | PyInt (n : Z)
  | PyFloat (x : float)
  | PyNone.

(** An [Optional[int]] as a value: [None] stays [None]. *)
Definition of_optional (o : option Z) : pyval :=
  match o with
  | Some n => PyInt n
  | None => PyNone
  end.

(** [if x is not None: params[k] = x]. *)
Definition set_if_given (k : string) (x : option Z)
    (params : list (string * pyval)) : list (string * pyval) :=
  match x with
  | Some n => setitem k (PyInt n) params
  | None => params
  end.

(** The type of [config["port"]]. *)
Variable port_type : Type.

(** [self]: the host and port taken from the configuration. *)
Record CliExecGeospatial : Type := Cli { host : string; port : port_type }.

(** [httputils.httprequest(host, port, service, method, obj=params)] and
    the type of what it returns; the module is not among the sources. *)
Variable response : Type.
Variable httprequest :
  string → port_type → string → string → list (string * pyval) → response.

(** [routers.GEO_ENDPOINT_PREFIX] and [routers.POINT_ENDPOINT_PREFIX],
    constants of a module that is not among the sources. *)
Variable GEO_ENDPOINT_PREFIX : string.
Variable POINT_ENDPOINT_PREFIX : string.

Definition show_cell_radius (self : CliExecGeospatial) (dataset cell : string)
    (radius : float) (year month day : option Z) (type : string) : response :=
  let params := [("cell", PyStr cell); ("radius", PyFloat radius)] in
  let params := set_if_given "year" year params in
  let params := set_if_given "month" month params in
  let params := set_if_given "day" day params in
  let service :=
    if decide (type = "h3")
    then GEO_ENDPOINT_PREFIX +:+ "/cell/radius/" +:+ dataset
    else POINT_ENDPOINT_PREFIX +:+ "/cell/radius/" +:+ dataset in
  let method := "POST" in
  httprequest (host self) (port self) service method params.

Definition show_cell_point (self : CliExecGeospatial) (dataset cell : string)
    (year month day : option Z) (type : string) : response :=
  let params := [("cell", PyStr cell)] in
  let params := set_if_given "year" year params in
  let params := set_if_given "month" month params in
  let params := set_if_given "day" day params in
  let service :=
    if decide (type = "h3")
    then GEO_ENDPOINT_PREFIX +:+ "/cell/point/" +:+ dataset
    else POINT_ENDPOINT_PREFIX +:+ "/cell/point/" +:+ dataset in
  let method := "POST" in
  httprequest (host self) (port self) service method params.

Definition show_latlong_radius (self : CliExecGeospatial) (dataset : string)
    (latitude longitude radius : float) (resolution year month day : option Z)
    (type : string) : response :=
  let params := [("latitude", PyFloat latitude);
                 ("longitude", PyFloat longitude);
                 ("radius", PyFloat radius);
                 ("year", of_optional year)] in
  let params := set_if_given "resolution" resolution params in
  let params := set_if_given "month" month params in
  let params := set_if_given "day" day params in
  let service :=
    if decide (type = "h3")
    then GEO_ENDPOINT_PREFIX +:+ "/latlong/radius/" +:+ dataset
    else POINT_ENDPOINT_PREFIX +:+ "/latlong/radius/" +:+ dataset in
  let method := "POST" in
  httprequest (host self) (port self) service method params.

Definition show_latlong_point (self : CliExecGeospatial) (dataset : string)
    (latitude longitude : float) (resolution : option Z) (year : Z)
    (month day : option Z) : response :=
  let params := [("latitude", PyFloat latitude);
                 ("longitude", PyFloat longitude);
                 ("year", PyInt year)] in
  let params := set_if_given "resolution" resolution params in
  let params := set_if_given "month" month params in
  let params := set_if_given "day" day params in
  let service := GEO_ENDPOINT_PREFIX +:+ "/latlong/point/" +:+ dataset in
  let method := "POST" in
  httprequest (host self) (port self) service method params.

Definition show_shapefile (self : CliExecGeospatial) (dataset shapefile : string)
    (region : option string) (resolution year : Z) (month day : option Z)
    (type : string) : response :=
  let params := [("shapefile", PyStr shapefile);
                 ("resolution", PyInt resolution);
                 ("year", PyInt year)] in
  let params := match region with
                | Some name => setitem "region" (PyStr name) params
                | None => params
                end in
  let params := set_if_given "month" month params in
  let params := set_if_given "day" day params in
  let service :=
    if decide (type = "h3")
    then GEO_ENDPOINT_PREFIX +:+ "/shapefile/" +:+ dataset
    else POINT_ENDPOINT_PREFIX +:+ "/shapefile/" +:+ dataset in
  let method := "POST" in
  httprequest (host self) (port self) service method params.

End Client.

Arguments PyStr {float} s.
Arguments PyInt {float} n.
Arguments PyFloat {float} x.
Arguments PyNone {float}.
Arguments Cli {port_type} host port.
Arguments host {port_type} c.
Arguments port {port_type} c.

(** A request as handed to [httprequest]: with [Request] in the place of
    [httprequest] an operation returns the request it makes. *)
Record request (float port_type : Type) : Type := Request {
  req_host : string;
  req_port : port_type;
  req_service : string;
  req_method : string;
  req_obj : list (string * pyval float)
}.
Arguments Request {float port_type}.
Arguments req_host {float port_type} r.
Arguments req_port {float port_type} r.
Arguments req_service {float port_type} r.
Arguments req_method {float port_type} r.
Arguments req_obj {float port_type} r.

(** ** Concrete runs

    The catalog in directory "/data", with the ASCII classification of
    characters and the sample type table. *)

Definition sample_add_metadata_entry :
    string → string → loc → string → string → M string :=
  add_metadata_entry ascii_isalnum sample_is_general_col_type
    sample_convert_to_cannonical_type "/data".

Definition sample_show_meta : M (list row) := show_meta "/data".

Definition sample_ds_meta_exists : string → M bool := ds_meta_exists "/data".

Definition sample_get_ds_metadata : string → M row :=
  get_ds_metadata ascii_isalnum "/data".

Definition temp_columns : pydict := [("avg", "float"); ("n", "int")].

Definition two_bad_names : pydict := [("a-b", "float"); ("c d!", "int")].

Definition two_bad_types : pydict :=
  [("avg", "float"); ("n", "number"); ("flag", "bit")].

(** A catalog that holds the one dataset "temp". *)
Definition temp_row : row :=
  Row "temp" "yearly temperature"
      (DuckMap ["avg"; "n"] ["FLOAT"; "INTEGER"]) "yearly" "h3".

Definition temp_world : world :=
  World ∅ (Some [temp_row])
        [Connection "/data/dataset_metadata.duckdb" false]
        [(0, CheckTableExists "dataset_metadata");
         (0, CreateTable "dataset_metadata");
         (0, InsertRow temp_row)].

(** A world with the catalog of [temp_world] and a dict for a second
    dataset. *)
Definition rain_columns : pydict := [("mm", "double"); ("days", "integer")].

Definition rain_world : world :=
  World {[ 1%positive := rain_columns ]} (Some [temp_row])
        [Connection "/data/dataset_metadata.duckdb" false] [].

(** A catalog with a row whose second column name is not alphanumeric. *)
Definition damaged_row : row :=
  Row "wind" "wind speed" (DuckMap ["speed"; "dir-deg"] ["FLOAT"; "FLOAT"])
      "daily" "point".

Definition damaged_world : world := World ∅ (Some [temp_row; damaged_row]) [] [].

(** * Proofs *)

Section Properties.

Variable isalnum : ascii → bool.
Variable is_general_col_type : string → bool * string.
Variable convert_to_cannonical_type : string → string.
Variable database_dir : string.

Local Abbreviation _get_non_alphanum_chars := (_get_non_alphanum_chars isalnum).
Local Abbreviation _get_db_path := (_get_db_path database_dir).
Local Abbreviation check_column_names := (check_column_names isalnum).
Local Abbreviation check_column_types :=
  (check_column_types is_general_col_type convert_to_cannonical_type).
Local Abbreviation add_metadata_entry :=
  (add_metadata_entry isalnum is_general_col_type convert_to_cannonical_type
     database_dir).
Local Abbreviation show_meta := (show_meta database_dir).
Local Abbreviation ds_meta_exists := (ds_meta_exists database_dir).
Local Abbreviation get_ds_metadata := (get_ds_metadata isalnum database_dir).
Local Abbreviation clean_name := (clean_name isalnum).
Local Abbreviation alnum_name := (alnum_name isalnum).
Local Abbreviation valid_type := (valid_type is_general_col_type).
Local Abbreviation type_errors := (type_errors is_general_col_type).
Local Abbreviation canonicalize :=
  (canonicalize is_general_col_type convert_to_cannonical_type).
Local Abbreviation store_valid :=
  (store_valid is_general_col_type convert_to_cannonical_type).
Local Abbreviation after_read := (after_read database_dir).
Local Abbreviation passes_validation :=
  (passes_validation isalnum is_general_col_type).
Local Abbreviation well_formed_row := (well_formed_row isalnum).

(** ** Lemmas on the monad *)

Lemma bind_ok {A B} (m : M A) (k : A → M B) w a w' :
  m w = (Ok a, w') → (m ≫= k) w = k a w'.
Proof. intros H. unfold mbind, M_bind, bind. by rewrite H. Qed.

Lemma bind_raise {A B} (m : M A) (k : A → M B) w e w' :
  m w = (Raise e, w') → (m ≫= k) w = (Raise e, w').
Proof. intros H. unfold mbind, M_bind, bind. by rewrite H. Qed.

Lemma dict_read_ok l d w : heap w !! l = Some d → dict_read l w = (Ok d, w).
Proof. intros H. unfold dict_read. by rewrite H. Qed.

Lemma set_heap_id w : set_heap (heap w) w = w.
Proof. by destruct w. Qed.

(** ** Lemmas on strings *)

Lemma str_length_0 s : String.length s = 0 ↔ s = "".
Proof. destruct s; simpl; split; intros; congruence. Qed.

Lemma str_mem_filter p c s :
  str_mem c (str_filter p s) = str_mem c s && p c.
Proof.
  induction s as [|a s IH]; simpl; [done|].
  destruct (p a) eqn:Hp; simpl.
  - destruct (Ascii.eqb_spec c a) as [->|]; [by rewrite Hp | done].
  - destruct (Ascii.eqb_spec c a) as [->|]; [|done].
    rewrite Hp, IH, Hp. by rewrite andb_false_r.
Qed.

Lemma translate_delete_within s t :
  (∀ c, str_mem c t = true → str_mem c s = true) →
  translate_delete (str_filter isalnum s) t
  = str_filter (λ c, negb (isalnum c)) t.
Proof.
  unfold translate_delete. induction t as [|a t IH]; intros Hsub; [done|].
  simpl. rewrite str_mem_filter.
  assert (str_mem a s = true) as ->.
  { apply Hsub. simpl. by rewrite Ascii.eqb_refl. }
  simpl. rewrite IH; [done|].
  intros c Hc. apply Hsub. simpl. rewrite Hc. by destruct (Ascii.eqb c a).
Qed.

(** The characters reported are all the characters of the name that are
    not alphanumeric, in the order and number in which they occur. *)
Lemma get_non_alphanum_chars_filter s :
  _get_non_alphanum_chars s = str_filter (λ c, negb (isalnum c)) s.
Proof. unfold _get_non_alphanum_chars. by apply translate_delete_within. Qed.

Lemma str_filter_nil_forallb p s :
  str_filter (λ c, negb (p c)) s = "" ↔ str_forallb p s = true.
Proof.
  induction s as [|a s IH]; simpl; [done|].
  destruct (p a); simpl; [done|]. split; intros; congruence.
Qed.

Lemma clean_name_alnum col_name : clean_name col_name ↔ alnum_name col_name.
Proof.
  unfold clean_name, alnum_name. rewrite get_non_alphanum_chars_filter.
  apply str_filter_nil_forallb.
Qed.

Lemma Forall_clean_alnum col_names :
  Forall clean_name col_names ↔ Forall alnum_name col_names.
Proof. apply Forall_iff. intros ?. apply clean_name_alnum. Qed.

(** ** The loop over the column names *)

Lemma check_column_names_clean col_names w :
  Forall clean_name col_names → check_column_names col_names w = (Ok tt, w).
Proof.
  induction 1 as [|c cs Hc _ IH]; simpl; [done|].
  unfold clean_name in Hc. by rewrite Hc.
Qed.

Lemma check_column_names_first pre col_name post w :
  Forall clean_name pre → ¬ clean_name col_name →
  check_column_names (pre ++ col_name :: post) w
  = (Raise (InvalidCharacterException
              (invalid_character_message col_name
                 (_get_non_alphanum_chars col_name))), w).
Proof.
  intros Hpre Hbad. induction Hpre as [|c cs Hc _ IH]; simpl.
  - destruct (_get_non_alphanum_chars col_name) eqn:E; [by destruct Hbad|done].
  - unfold clean_name in Hc. by rewrite Hc.
Qed.

Lemma clean_name_dec col_name : {clean_name col_name} + {¬ clean_name col_name}.
Proof. unfold clean_name. exact (decide _). Qed.

(** A list of names is clean throughout, or splits at its first name that
    is not. *)
Lemma first_unclean col_names :
  Forall clean_name col_names ∨
  ∃ pre col_name post, col_names = pre ++ col_name :: post
                       ∧ Forall clean_name pre ∧ ¬ clean_name col_name.
Proof.
  induction col_names as [|c cs IH]; [by left|].
  destruct (clean_name_dec c) as [Hc|Hc].
  - destruct IH as [IH|(pre & x & post & -> & Hpre & Hx)].
    + left. by constructor.
    + right. exists (c :: pre), x, post.
      split; [done|]. split; [by constructor|done].
  - right. exists [], c, cs. split; [done|]. split; [constructor|done].
Qed.

(** The loop never touches the world, and raises nothing but
    [InvalidCharacterException]. *)
Lemma check_column_names_outcome col_names w :
  (check_column_names col_names w).2 = w ∧
  ((check_column_names col_names w).1 = Ok tt ∨
   ∃ msg, (check_column_names col_names w).1 = Raise (InvalidCharacterException msg)).
Proof.
  destruct (first_unclean col_names) as [H|(pre & x & post & -> & Hpre & Hx)].
  - rewrite check_column_names_clean by done. eauto.
  - rewrite check_column_names_first by done. eauto.
Qed.

(** ** The loop over the column types *)

Lemma check_column_types_run value_columns items : ∀ col_errors d w,
  heap w !! value_columns = Some d →
  check_column_types value_columns items col_errors w
  = (Ok (col_errors ++ type_errors items),
     set_heap (<[value_columns := store_valid items d]> (heap w)) w).
Proof.
  induction items as [|[k v] items IH]; intros col_errors d w Hd; simpl.
  - rewrite app_nil_r. unfold ret. rewrite insert_id by done.
    by rewrite set_heap_id.
  - unfold type_errors, valid_type. simpl.
    destruct (is_general_col_type v) as [is_valid error] eqn:Ev. simpl.
    destruct is_valid.
    + erewrite bind_ok; last first.
      { unfold dict_store. rewrite Hd. reflexivity. }
      erewrite IH; last first.
      { simpl. apply lookup_insert_eq. }
      simpl. rewrite insert_insert_eq. reflexivity.
    + erewrite IH by done. rewrite <-app_assoc. reflexivity.
Qed.

Lemma dict_setitem_middle k v v' pre post :
  k ∉ pre.*1 →
  dict_setitem k v' (pre ++ (k, v) :: post) = pre ++ (k, v') :: post.
Proof.
  induction pre as [|[k0 v0] pre IH]; simpl; intros Hk.
  - by rewrite String.eqb_refl.
  - apply not_elem_of_cons in Hk as [Hne Hk].
    destruct (String.eqb_spec k k0); [done|]. by rewrite IH.
Qed.

Lemma store_valid_prefix items : ∀ pre,
  NoDup (pre ++ items).*1 →
  store_valid items (pre ++ items) = pre ++ canonicalize items.
Proof.
  induction items as [|[k v] items IH]; intros pre Hnd; [done|].
  assert (k ∉ pre.*1) as Hk.
  { rewrite fmap_app in Hnd. apply NoDup_app in Hnd as (_ & Hnd & _).
    intros Hin. apply (Hnd k Hin). simpl. left. }
  assert (∀ v', store_valid items (pre ++ (k, v') :: items)
                = pre ++ (k, v') :: canonicalize items) as Hrest.
  { intros v'. rewrite (cons_middle _ pre items), app_assoc, IH.
    - by rewrite <-app_assoc.
    - rewrite <-app_assoc. simpl. by rewrite !fmap_app in *. }
  change (store_valid ((k, v) :: items) (pre ++ (k, v) :: items))
    with (store_valid items
            (if valid_type v
             then dict_setitem k (convert_to_cannonical_type v)
                    (pre ++ (k, v) :: items)
             else pre ++ (k, v) :: items)).
  unfold canonicalize at 1. simpl. fold (canonicalize items).
  destruct (valid_type v).
  - rewrite dict_setitem_middle by done. apply Hrest.
  - apply Hrest.
Qed.

(** On a dict, whose keys are distinct, the assignments of the type loop
    amount to rewriting every valid type in place. *)
Lemma store_valid_canonicalize d :
  NoDup (dict_keys d) → store_valid d d = canonicalize d.
Proof. intros Hnd. by apply (store_valid_prefix d []). Qed.

Lemma type_errors_nil items :
  type_errors items = [] ↔ Forall (λ kv, valid_type kv.2 = true) items.
Proof.
  unfold type_errors. induction items as [|[k v] items IH]; simpl.
  - split; [constructor|done].
  - destruct (valid_type v) eqn:Ev; simpl.
    + rewrite IH. split; [by constructor|by inversion 1].
    + split; [done|]. inversion 1; simplify_eq/=. congruence.
Qed.

(** ** [add_metadata_entry], stage by stage *)

Lemma lookup_last_connection (cs : list connection) cn :
  (cs ++ [cn]) !! length cs = Some cn.
Proof. by rewrite lookup_app_r, Nat.sub_diag by lia. Qed.

Lemma insert_last_connection (cs : list connection) cn cn' :
  <[length cs := cn']> (cs ++ [cn]) = cs ++ [cn'].
Proof.
  rewrite insert_app_r_alt by lia. by rewrite Nat.sub_diag.
Qed.

(** The checks up to the type loop, for a name that is not reserved and
    column names that are clean: what remains to run, and in which world. *)
Ltac run_checks Hname Hd Hclean :=
  unfold add_metadata_entry;
  destruct (decide _) as [?|_]; [by destruct Hname|];
  erewrite bind_ok by (apply dict_read_ok, Hd);
  erewrite bind_ok by (apply check_column_names_clean, Hclean);
  erewrite bind_ok by (apply dict_read_ok, Hd);
  erewrite bind_ok by (apply check_column_types_run, Hd);
  rewrite app_nil_l.

Lemma length_pos_non_nil {A} (l : list A) : (0 <? length l) = true ↔ l ≠ [].
Proof. destruct l; simpl; split; intros; try done. Qed.

Lemma add_metadata_entry_bad_types name descr value_columns itv dtype d w :
  name ≠ METADATA_DB_NAME →
  heap w !! value_columns = Some d →
  Forall clean_name (dict_keys d) →
  type_errors d ≠ [] →
  add_metadata_entry name descr value_columns itv dtype w
  = (Raise (InvalidColumnTypeException (type_errors d)),
     set_heap (<[value_columns := store_valid d d]> (heap w)) w).
Proof.
  intros Hname Hd Hclean Herr. run_checks Hname Hd Hclean.
  apply length_pos_non_nil in Herr. by rewrite Herr.
Qed.

Lemma add_metadata_entry_bad_dataset_type name descr value_columns itv dtype d w :
  name ≠ METADATA_DB_NAME →
  heap w !! value_columns = Some d →
  Forall clean_name (dict_keys d) →
  type_errors d = [] →
  dtype ∉ VALID_DATASET_TYPES →
  add_metadata_entry name descr value_columns itv dtype w
  = (Raise (InvalidArgumentException (dataset_type_message dtype)),
     set_heap (<[value_columns := store_valid d d]> (heap w)) w).
Proof.
  intros Hname Hd Hclean Herr Hdt. run_checks Hname Hd Hclean.
  rewrite Herr. simpl. by rewrite bool_decide_eq_false_2.
Qed.

Lemma add_metadata_entry_bad_interval name descr value_columns itv dtype d w :
  name ≠ METADATA_DB_NAME →
  heap w !! value_columns = Some d →
  Forall clean_name (dict_keys d) →
  type_errors d = [] →
  dtype ∈ VALID_DATASET_TYPES →
  itv ∉ VALID_META_INTERVALS →
  add_metadata_entry name descr value_columns itv dtype w
  = (Raise (InvalidArgumentException (interval_message itv)),
     set_heap (<[value_columns := store_valid d d]> (heap w)) w).
Proof.
  intros Hname Hd Hclean Herr Hdt Hitv. run_checks Hname Hd Hclean.
  rewrite Herr. simpl. rewrite bool_decide_eq_true_2 by done. simpl.
  by rewrite bool_decide_eq_false_2.
Qed.

(** A call that passes every check: the connection is opened, the table is
    created if it is not there, the row is inserted unless its name is
    taken, and the connection is closed either way. *)
Lemma add_metadata_entry_persist name descr value_columns itv dtype d w :
  name ≠ METADATA_DB_NAME →
  heap w !! value_columns = Some d →
  Forall clean_name (dict_keys d) →
  type_errors d = [] →
  dtype ∈ VALID_DATASET_TYPES →
  itv ∈ VALID_META_INTERVALS →
  let d' := store_valid d d in
  let r := Row name descr (DuckMap (dict_keys d') (dict_values d')) itv dtype in
  let c := length (connections w) in
  let rows := default [] (table w) in
  let path := _get_db_path METADATA_DB_NAME in
  let heap' := <[value_columns := d']> (heap w) in
  let conns' := connections w ++ [Connection path false] in
  let journal' :=
    journal w ++ [(c, CheckTableExists METADATA_TABLE_NAME)]
      ++ (if bool_decide (is_Some (table w)) then []
          else [(c, CreateTable METADATA_TABLE_NAME)])
      ++ [(c, InsertRow r)] in
  add_metadata_entry name descr value_columns itv dtype w
  = if decide (name ∈ dataset_name <$> rows)
    then (Raise (BgsAlreadyExistsException (already_exists_message name)
                   (ConstraintException
                      "Duplicate key violates primary key constraint")),
          World heap' (Some rows) conns' journal')
    else (Ok name, World heap' (Some (rows ++ [r])) conns' journal').
Proof.
  intros Hname Hd Hclean Herr Hdt Hitv. simpl. run_checks Hname Hd Hclean.
  rewrite Herr. simpl. rewrite !bool_decide_eq_true_2 by done. simpl.
  unfold mbind, M_bind, bind, duckdb_connect, duckdb_check_table_exists,
    dict_read, try_except_finally, execute_insert, connection_close.
  destruct w as [h t cs j]. simpl in *.
  destruct t as [rows|]; simpl.
  - rewrite lookup_insert_eq. simpl.
    destruct (decide (name ∈ dataset_name <$> rows)); simpl;
      rewrite lookup_last_connection; simpl;
      rewrite insert_last_connection;
      unfold ret, set_connections, set_table, log_stmt, set_heap; simpl;
      by rewrite <-?app_assoc.
  - rewrite lookup_insert_eq. simpl.
    destruct (decide (name ∈ [])) as [Hin|_]; [by apply elem_of_nil in Hin|].
    simpl. rewrite lookup_last_connection. simpl.
    rewrite insert_last_connection.
    unfold ret, set_connections, set_table, log_stmt, set_heap. simpl.
    by rewrite <-?app_assoc.
Qed.

(** ** The read operations, run *)

Lemma show_meta_run w :
  show_meta w
  = match table w with
    | Some rows =>
        (Ok (map row_to_dict rows),
         after_read [CheckTableExists METADATA_TABLE_NAME; SelectAll] w)
    | None =>
        (Raise (Exception table_missing_message),
         after_read [CheckTableExists METADATA_TABLE_NAME] w)
    end.
Proof.
  unfold show_meta, after_read, mbind, M_bind, bind, duckdb_connect,
    duckdb_check_table_exists, execute_query, ret, raise.
  destruct w as [h [rows|] cs j]; simpl;
    unfold log_stmt, set_connections; simpl; by rewrite <-?app_assoc.
Qed.

Lemma ds_meta_exists_run name w :
  ds_meta_exists name w
  = match table w with
    | Some rows =>
        (Ok (length (filter (λ r, row_name r = name) rows) =? 1),
         after_read [CheckTableExists METADATA_TABLE_NAME; SelectCount name] w)
    | None =>
        (Raise (Exception (table_missing_message +:+ " in database "
                             +:+ _get_db_path METADATA_DB_NAME)),
         after_read [CheckTableExists METADATA_TABLE_NAME] w)
    end.
Proof.
  unfold ds_meta_exists, after_read, mbind, M_bind, bind, duckdb_connect,
    duckdb_check_table_exists, execute_query, ret, raise.
  destruct w as [h [rows|] cs j]; simpl;
    unfold log_stmt, set_connections; simpl; by rewrite <-?app_assoc.
Qed.

Lemma get_ds_metadata_run name w :
  get_ds_metadata name w
  = match table w with
    | Some rows =>
        let w' := after_read [CheckTableExists METADATA_TABLE_NAME;
                              SelectByName name] w in
        match head (filter (λ r, row_name r = name) rows) with
        | Some r =>
            match check_column_names (key (value_columns r)) w' with
            | (Ok _, w'') => (Ok (row_to_dict r), w'')
            | (Raise e, w'') => (Raise e, w'')
            end
        | None => (Raise (TypeError none_not_subscriptable), w')
        end
    | None =>
        (Raise (Exception table_missing_message),
         after_read [CheckTableExists METADATA_TABLE_NAME] w)
    end.
Proof.
  unfold get_ds_metadata, after_read, mbind, M_bind, bind, duckdb_connect,
    duckdb_check_table_exists, execute_query, ret, raise.
  destruct w as [h [rows|] cs j]; simpl;
    unfold log_stmt, set_connections; simpl; rewrite <-?app_assoc; [|done].
  simpl. destruct (head _) as [r|]; [|done]. simpl.
  by destruct (check_column_names _ _) as [[[]|e] w''].
Qed.

Lemma filter_name_absent name (rows : list row) :
  name ∉ dataset_name <$> rows → filter (λ r, row_name r = name) rows = [].
Proof.
  intros Hn. induction rows as [|r rows IH]; [done|].
  rewrite fmap_cons in Hn. apply not_elem_of_cons in Hn as [Hne Hn].
  rewrite filter_cons_False; [by apply IH|]. unfold row_name. congruence.
Qed.

Lemma type_errors_nil_values d :
  type_errors d = [] ↔ Forall (λ v, valid_type v = true) (dict_values d).
Proof. rewrite type_errors_nil. unfold dict_values. by rewrite Forall_fmap. Qed.

Lemma add_metadata_entry_reserved name descr value_columns itv dtype w :
  name = METADATA_DB_NAME →
  add_metadata_entry name descr value_columns itv dtype w
  = (Raise (Exception reserved_name_message), w).
Proof. intros ->. unfold add_metadata_entry. by destruct (decide _). Qed.

Lemma add_metadata_entry_bad_name
    name descr value_columns itv dtype d pre col_name post w :
  name ≠ METADATA_DB_NAME →
  heap w !! value_columns = Some d →
  dict_keys d = pre ++ col_name :: post →
  Forall clean_name pre →
  ¬ clean_name col_name →
  add_metadata_entry name descr value_columns itv dtype w
  = (Raise (InvalidCharacterException
              (invalid_character_message col_name
                 (_get_non_alphanum_chars col_name))), w).
Proof.
  intros Hname Hd Hkeys Hpre Hbad. unfold add_metadata_entry.
  destruct (decide _) as [?|_]; [done|].
  erewrite bind_ok by (apply dict_read_ok, Hd).
  erewrite bind_raise; [reflexivity|].
  rewrite Hkeys. by apply check_column_names_first.
Qed.

Lemma add_metadata_entry_no_dict name descr value_columns itv dtype w :
  name ≠ METADATA_DB_NAME →
  heap w !! value_columns = None →
  add_metadata_entry name descr value_columns itv dtype w
  = (Raise (AttributeError "object is not a dict"), w).
Proof.
  intros Hname Hd. unfold add_metadata_entry.
  destruct (decide _) as [?|_]; [done|].
  erewrite bind_raise; [reflexivity|]. unfold dict_read. by rewrite Hd.
Qed.

(** ** Properties of the catalog *)

(** C4.  A call of [add_metadata_entry] whose dataset name is the reserved
    name "dataset_metadata" fails with the reserved-name error, and leaves
    the whole world as it was: no connection is opened, no statement is
    executed, nothing is stored. *)
Theorem add_metadata_entry_reserved_name descr value_columns itv dtype w :
  let run := add_metadata_entry METADATA_DB_NAME descr value_columns itv dtype w in
  run.1 = Raise (Exception reserved_name_message)
  ∧ run.2 = w
  ∧ connections run.2 = connections w
  ∧ journal run.2 = journal w
  ∧ table run.2 = table w.
Proof. intros run. subst run. by rewrite add_metadata_entry_reserved. Qed.

(** C1, as amended.  When the dataset name is not the reserved one and some
    column name has a character that is not alphanumeric, the call fails
    with [InvalidCharacterException]; the error names the first such column
    in the order of the mapping, with all the characters of that column
    that are not alphanumeric, and the world is left as it was. *)
Theorem add_metadata_entry_invalid_character
    name descr value_columns itv dtype d pre col_name post w :
  name ≠ METADATA_DB_NAME →
  heap w !! value_columns = Some d →
  dict_keys d = pre ++ col_name :: post →
  Forall alnum_name pre →
  ¬ alnum_name col_name →
  add_metadata_entry name descr value_columns itv dtype w
  = (Raise (InvalidCharacterException
              (invalid_character_message col_name
                 (str_filter (λ c, negb (isalnum c)) col_name))), w).
Proof.
  intros Hname Hd Hkeys Hpre Hbad.
  rewrite <-get_non_alphanum_chars_filter.
  eapply add_metadata_entry_bad_name; eauto.
  - by apply Forall_clean_alnum.
  - by rewrite clean_name_alnum.
Qed.

(** C2, as amended.  The checks of [add_metadata_entry] are made in the
    order: reserved name, characters of the column names, column types,
    dataset type, interval.  So when the dataset type is not recognized the
    error is the [InvalidArgumentException] for the dataset type, whatever
    the interval is. *)
Theorem add_metadata_entry_validation_order
    name descr value_columns itv dtype d w :
  heap w !! value_columns = Some d →
  let r := (add_metadata_entry name descr value_columns itv dtype w).1 in
  (name = METADATA_DB_NAME → r = Raise (Exception reserved_name_message))
  ∧ (name ≠ METADATA_DB_NAME →
     ¬ Forall alnum_name (dict_keys d) →
     ∃ msg, r = Raise (InvalidCharacterException msg))
  ∧ (name ≠ METADATA_DB_NAME →
     Forall alnum_name (dict_keys d) →
     ¬ Forall (λ v, valid_type v = true) (dict_values d) →
     ∃ col_errors, r = Raise (InvalidColumnTypeException col_errors))
  ∧ (name ≠ METADATA_DB_NAME →
     Forall alnum_name (dict_keys d) →
     Forall (λ v, valid_type v = true) (dict_values d) →
     dtype ∉ VALID_DATASET_TYPES →
     r = Raise (InvalidArgumentException (dataset_type_message dtype)))
  ∧ (name ≠ METADATA_DB_NAME →
     Forall alnum_name (dict_keys d) →
     Forall (λ v, valid_type v = true) (dict_values d) →
     dtype ∈ VALID_DATASET_TYPES →
     itv ∉ VALID_META_INTERVALS →
     r = Raise (InvalidArgumentException (interval_message itv))).
Proof.
  intros Hd r. subst r. repeat split.
  - intros Hname. by rewrite add_metadata_entry_reserved.
  - intros Hname Hbad. rewrite <-Forall_clean_alnum in Hbad.
    destruct (first_unclean (dict_keys d))
      as [?|(pre & x & post & Hkeys & Hpre & Hx)]; [done|].
    erewrite add_metadata_entry_bad_name; eauto.
  - intros Hname Hclean Hbad. rewrite <-Forall_clean_alnum in Hclean.
    rewrite <-type_errors_nil_values in Hbad.
    erewrite add_metadata_entry_bad_types; eauto.
  - intros Hname Hclean Hvalid Hdt. rewrite <-Forall_clean_alnum in Hclean.
    rewrite <-type_errors_nil_values in Hvalid.
    by erewrite add_metadata_entry_bad_dataset_type.
  - intros Hname Hclean Hvalid Hdt Hitv. rewrite <-Forall_clean_alnum in Hclean.
    rewrite <-type_errors_nil_values in Hvalid.
    by erewrite add_metadata_entry_bad_interval.
Qed.

(** C3, as amended.  When the dataset name is not the reserved one, all the
    column names are alphanumeric and some column types are invalid, the
    call fails with one [InvalidColumnTypeException] that carries the error
    line of every invalid column, in the order of the mapping: one line per
    invalid column, not only the first. *)
Theorem add_metadata_entry_collects_type_errors
    name descr value_columns itv dtype d w :
  name ≠ METADATA_DB_NAME →
  heap w !! value_columns = Some d →
  Forall alnum_name (dict_keys d) →
  Exists (λ kv, valid_type kv.2 = false) d →
  let invalid := filter (λ kv, valid_type kv.2 = false) d in
  (add_metadata_entry name descr value_columns itv dtype w).1
  = Raise (InvalidColumnTypeException
             (map (λ kv, column_error_message kv.1 (is_general_col_type kv.2).2)
                  invalid))
  ∧ storage (add_metadata_entry name descr value_columns itv dtype w).2
    = storage w.
Proof.
  intros Hname Hd Hclean Hbad invalid. rewrite <-Forall_clean_alnum in Hclean.
  assert (type_errors d
          = map (λ kv, column_error_message kv.1 (is_general_col_type kv.2).2)
                invalid) as Herrs.
  { subst invalid. unfold type_errors. clear.
    induction d as [|[k v] d IH]; [done|].
    rewrite filter_cons. simpl. destruct (valid_type v) eqn:Ev; simpl.
    - apply IH.
    - f_equal. apply IH. }
  assert (type_errors d ≠ []) as Hne.
  { rewrite type_errors_nil. intros Hall.
    apply Exists_exists in Hbad as (kv & Hin & Hkv).
    rewrite Forall_forall in Hall. specialize (Hall kv Hin). congruence. }
  erewrite add_metadata_entry_bad_types by eauto. simpl.
  by rewrite Herrs.
Qed.

(** C5.  Whenever [add_metadata_entry] fails with one of the errors of its
    checks (reserved name, [InvalidCharacterException],
    [InvalidColumnTypeException], [InvalidArgumentException]), the storage
    is what it was before the call: the metadata table is unchanged, no
    connection has been opened and no statement has been executed. *)
Theorem add_metadata_entry_validation_before_storage
    name descr value_columns itv dtype w e :
  (add_metadata_entry name descr value_columns itv dtype w).1 = Raise e →
  validation_error e = true →
  storage (add_metadata_entry name descr value_columns itv dtype w).2
  = storage w.
Proof.
  destruct (decide (name = METADATA_DB_NAME)) as [Hname|Hname].
  { by rewrite add_metadata_entry_reserved. }
  destruct (heap w !! value_columns) as [d|] eqn:Hd; last first.
  { rewrite add_metadata_entry_no_dict by done. simpl. by intros [= <-]. }
  destruct (first_unclean (dict_keys d))
    as [Hclean|(pre & x & post & Hkeys & Hpre & Hx)]; last first.
  { by erewrite add_metadata_entry_bad_name. }
  destruct (decide (type_errors d = [])) as [Herr|Herr]; last first.
  { by erewrite add_metadata_entry_bad_types. }
  destruct (decide (dtype ∈ VALID_DATASET_TYPES)) as [Hdt|Hdt]; last first.
  { by erewrite add_metadata_entry_bad_dataset_type. }
  destruct (decide (itv ∈ VALID_META_INTERVALS)) as [Hitv|Hitv]; last first.
  { by erewrite add_metadata_entry_bad_interval. }
  erewrite add_metadata_entry_persist by done.
  destruct (decide _); simpl; [by intros [= <-]|done].
Qed.

(** C6.  Two calls of [add_metadata_entry] with the same dataset name, not
    registered before, each passing the checks: the first returns the name,
    the second fails with [BgsAlreadyExistsException] made from the
    constraint violation of the storage engine, and the metadata table
    after the second call is the table after the first, where the name has
    the one row the first call stored. *)
Theorem add_metadata_entry_twice
    name descr1 value_columns1 itv1 dtype1
    descr2 value_columns2 itv2 dtype2 w :
  ¬ registered name w →
  passes_validation w name value_columns1 itv1 dtype1 →
  let run1 := add_metadata_entry name descr1 value_columns1 itv1 dtype1 w in
  passes_validation run1.2 name value_columns2 itv2 dtype2 →
  let run2 := add_metadata_entry name descr2 value_columns2 itv2 dtype2 run1.2 in
  run1.1 = Ok name
  ∧ (∃ msg, run2.1 = Raise (BgsAlreadyExistsException
                               (already_exists_message name)
                               (ConstraintException msg)))
  ∧ table run2.2 = table run1.2
  ∧ ∃ rows r, table run2.2 = Some rows
              ∧ filter (λ r, row_name r = name) rows = [r]
              ∧ description r = descr1
              ∧ interval r = itv1
              ∧ dataset_type r = dtype1.
Proof.
  intros Hfresh (Hname & d1 & Hd1 & Hn1 & Hv1 & Hdt1 & Hitv1) run1.
  rewrite <-Forall_clean_alnum in Hn1. rewrite <-type_errors_nil_values in Hv1.
  assert (run1 = add_metadata_entry name descr1 value_columns1 itv1 dtype1 w)
    as Hrun1 by done.
  rewrite add_metadata_entry_persist with (d := d1) in Hrun1 by done.
  destruct (decide _) as [?|_] in Hrun1; [done|].
  clearbody run1. subst run1.
  intros (_ & d2 & Hd2 & Hn2 & Hv2 & Hdt2 & Hitv2) run2. simpl in Hd2.
  rewrite <-Forall_clean_alnum in Hn2. rewrite <-type_errors_nil_values in Hv2.
  assert (run2 = add_metadata_entry name descr2 value_columns2 itv2 dtype2
                   (World (<[value_columns1 := store_valid d1 d1]> (heap w))
                      (Some (default [] (table w) ++
                             [Row name descr1
                                (DuckMap (dict_keys (store_valid d1 d1))
                                   (dict_values (store_valid d1 d1)))
                                itv1 dtype1]))
                      (connections w ++
                       [Connection (_get_db_path METADATA_DB_NAME) false])
                      (journal w ++
                       [(length (connections w),
                         CheckTableExists METADATA_TABLE_NAME)] ++
                       (if bool_decide (is_Some (table w)) then []
                        else [(length (connections w),
                               CreateTable METADATA_TABLE_NAME)]) ++
                       [(length (connections w),
                         InsertRow
                           (Row name descr1
                              (DuckMap (dict_keys (store_valid d1 d1))
                                 (dict_values (store_valid d1 d1)))
                              itv1 dtype1))])))
    as Hrun2 by done.
  rewrite add_metadata_entry_persist with (d := d2) in Hrun2 by done.
  simpl in Hrun2.
  destruct (decide _) as [_|Hout] in Hrun2; last first.
  { destruct Hout. rewrite fmap_app. apply elem_of_app. right. simpl. left. }
  clearbody run2. subst run2. simpl.
  split; [done|]. split; [eauto|]. split; [done|].
  eexists _, _. split; [done|].
  rewrite filter_app, filter_name_absent by done. simpl.
  rewrite filter_cons_True by done. by rewrite filter_nil.
Qed.

(** C7 fails on the code.  For a name that has no row in the metadata table
    (the table being there), [get_ds_metadata] fails with the [TypeError]
    of subscripting [None], the result of [fetchone]; no error of the
    catalog says that the dataset is not found. *)
Theorem get_ds_metadata_unregistered name rows w :
  table w = Some rows →
  name ∉ dataset_name <$> rows →
  get_ds_metadata name w
  = (Raise (TypeError none_not_subscriptable),
     after_read [CheckTableExists METADATA_TABLE_NAME; SelectByName name] w).
Proof.
  intros Ht Hn. rewrite get_ds_metadata_run, Ht. simpl.
  by rewrite filter_name_absent.
Qed.

(** What [add_metadata_entry] does with its connection, for comparison with
    the read operations: a call that passes the checks closes the
    connection it opened, whether the insert succeeds or not. *)
Lemma add_metadata_entry_closes_connection
    name descr value_columns itv dtype w :
  passes_validation w name value_columns itv dtype →
  connections (add_metadata_entry name descr value_columns itv dtype w).2
  = connections w ++ [Connection (_get_db_path METADATA_DB_NAME) false].
Proof.
  intros (Hname & d & Hd & Hn & Hv & Hdt & Hitv).
  rewrite <-Forall_clean_alnum in Hn. rewrite <-type_errors_nil_values in Hv.
  erewrite add_metadata_entry_persist by done. by destruct (decide _).
Qed.

(** C8 fails on the code.  [show_meta], [ds_meta_exists] and
    [get_ds_metadata] open a connection and return, or raise, without
    closing it: on every exit path the connection they opened is the last
    one of the world they leave, and it is open. *)
Theorem read_operations_leave_connection_open name w :
  let left_open :=
    connections w ++ [Connection (_get_db_path METADATA_DB_NAME) true] in
  connections (show_meta w).2 = left_open
  ∧ connections (ds_meta_exists name w).2 = left_open
  ∧ connections (get_ds_metadata name w).2 = left_open.
Proof.
  intros left_open. subst left_open.
  rewrite show_meta_run, ds_meta_exists_run, get_ds_metadata_run.
  destruct (table w) as [rows|]; [|done]. simpl.
  split; [done|]. split; [done|].
  destruct (head _) as [r|]; [|done].
  pose proof (check_column_names_outcome (key (value_columns r))
    (after_read [CheckTableExists METADATA_TABLE_NAME; SelectByName name] w))
    as [Hw _].
  destruct (check_column_names _ _) as [[[]|e] w'']; simpl in *; by subst w''.
Qed.

(** C9.  A call of [add_metadata_entry] that reaches the type loop (the
    name is not reserved, the column names are alphanumeric) leaves the
    caller's dict with every valid type replaced by its canonical spelling
    and every other entry as it was.  This is so also when the call then
    fails with [InvalidColumnTypeException] because some type is invalid. *)
Theorem add_metadata_entry_canonicalizes_in_place
    name descr value_columns itv dtype d w :
  name ≠ METADATA_DB_NAME →
  heap w !! value_columns = Some d →
  NoDup (dict_keys d) →
  Forall alnum_name (dict_keys d) →
  let run := add_metadata_entry name descr value_columns itv dtype w in
  heap run.2 = <[value_columns := canonicalize d]> (heap w)
  ∧ (Exists (λ kv, valid_type kv.2 = false) d →
     ∃ col_errors, run.1 = Raise (InvalidColumnTypeException col_errors)).
Proof.
  intros Hname Hd Hnd Hclean run. subst run.
  rewrite <-Forall_clean_alnum in Hclean.
  rewrite <-(store_valid_canonicalize d) by done.
  destruct (decide (type_errors d = [])) as [Herr|Herr].
  - split.
    + destruct (decide (dtype ∈ VALID_DATASET_TYPES)) as [Hdt|Hdt]; last first.
      { by erewrite add_metadata_entry_bad_dataset_type. }
      destruct (decide (itv ∈ VALID_META_INTERVALS)) as [Hitv|Hitv]; last first.
      { by erewrite add_metadata_entry_bad_interval. }
      erewrite add_metadata_entry_persist by done. by destruct (decide _).
    + intros Hbad. apply type_errors_nil in Herr.
      apply Exists_exists in Hbad as (kv & Hin & Hkv).
      rewrite Forall_forall in Herr. specialize (Herr kv Hin). congruence.
  - erewrite add_metadata_entry_bad_types by done. eauto.
Qed.

(** C10.  [ds_meta_exists] raises when the metadata table was never
    created, instead of returning false; when the table is there it
    returns true exactly when one row of the table has the given name. *)
Theorem ds_meta_exists_spec name w :
  (table w = None →
   (ds_meta_exists name w).1
   = Raise (Exception (table_missing_message +:+ " in database "
                         +:+ _get_db_path METADATA_DB_NAME)))
  ∧ (∀ rows, table w = Some rows →
       ∃ b, (ds_meta_exists name w).1 = Ok b
            ∧ (b = true ↔ length (filter (λ r, row_name r = name) rows) = 1)).
Proof.
  rewrite ds_meta_exists_run. split.
  - by intros ->.
  - intros rows ->. eexists. split; [done|]. apply Nat.eqb_eq.
Qed.

(** * Further properties of the catalog *)

(** ** The caller's dict *)

Lemma dict_setitem_keys k v (d : pydict) :
  k ∈ d.*1 → (dict_setitem k v d).*1 = d.*1.
Proof.
  induction d as [|[k0 v0] d IH]; simpl; intros Hk.
  - by apply elem_of_nil in Hk.
  - destruct (String.eqb_spec k k0) as [->|Hne]; [done|].
    apply elem_of_cons in Hk as [?|Hk]; [done|]. simpl. f_equal. by apply IH.
Qed.

Lemma store_valid_keys items : ∀ d : pydict,
  items.*1 ⊆ d.*1 → dict_keys (store_valid items d) = dict_keys d.
Proof.
  unfold dict_keys.
  induction items as [|[k v] items IH]; intros d Hsub; [done|].
  change (store_valid ((k, v) :: items) d)
    with (store_valid items
            (if valid_type v
             then dict_setitem k (convert_to_cannonical_type v) d else d)).
  assert (k ∈ d.*1) as Hk by (apply Hsub; simpl; left).
  assert (items.*1 ⊆ d.*1) as Hsub'.
  { intros x Hx. apply Hsub. simpl. by right. }
  destruct (valid_type v).
  - rewrite IH.
    + by apply dict_setitem_keys.
    + by rewrite dict_setitem_keys.
  - by apply IH.
Qed.

Lemma store_valid_self_keys (d : pydict) :
  dict_keys (store_valid d d) = dict_keys d.
Proof. by apply store_valid_keys. Qed.

Lemma canonicalize_values (d : pydict) :
  Forall (λ v, valid_type v = true) (dict_values d) →
  dict_values (canonicalize d) = convert_to_cannonical_type <$> dict_values d.
Proof.
  unfold dict_values, canonicalize.
  induction d as [|[k v] d IH]; simpl; [done|].
  intros Hv. apply Forall_cons in Hv as [-> Hv]. f_equal. by apply IH.
Qed.

Lemma canonicalize_zip (d : pydict) :
  Forall (λ v, valid_type v = true) (dict_values d) →
  canonicalize d
  = zip (dict_keys d) (convert_to_cannonical_type <$> dict_values d).
Proof.
  unfold dict_keys, dict_values, canonicalize.
  induction d as [|[k v] d IH]; simpl; [done|].
  intros Hv. apply Forall_cons in Hv as [-> Hv]. f_equal. by apply IH.
Qed.

(** ** The outcomes of [add_metadata_entry] *)

(** A call either fails before it reaches the storage, or passes every
    check and goes on to insert. *)
Lemma add_metadata_entry_cases name descr value_columns itv dtype w :
  (∃ e, (add_metadata_entry name descr value_columns itv dtype w).1 = Raise e
        ∧ storage (add_metadata_entry name descr value_columns itv dtype w).2
          = storage w
        ∧ (heap (add_metadata_entry name descr value_columns itv dtype w).2
           = heap w
           ∨ ∃ d, heap w !! value_columns = Some d
                  ∧ heap (add_metadata_entry name descr value_columns itv dtype w).2
                    = <[value_columns := store_valid d d]> (heap w)))
  ∨ (∃ d, heap w !! value_columns = Some d
          ∧ name ≠ METADATA_DB_NAME
          ∧ Forall clean_name (dict_keys d)
          ∧ type_errors d = []
          ∧ dtype ∈ VALID_DATASET_TYPES
          ∧ itv ∈ VALID_META_INTERVALS).
Proof.
  destruct (decide (name = METADATA_DB_NAME)) as [Hname|Hname].
  { left. rewrite add_metadata_entry_reserved by done. eauto. }
  destruct (heap w !! value_columns) as [d|] eqn:Hd; last first.
  { left. rewrite add_metadata_entry_no_dict by done. eauto. }
  destruct (first_unclean (dict_keys d))
    as [Hclean|(pre & x & post & Hkeys & Hpre & Hx)]; last first.
  { left. erewrite add_metadata_entry_bad_name by done. eauto. }
  destruct (decide (type_errors d = [])) as [Herr|Herr]; last first.
  { left. erewrite add_metadata_entry_bad_types by done. simpl. eauto 10. }
  destruct (decide (dtype ∈ VALID_DATASET_TYPES)) as [Hdt|Hdt]; last first.
  { left. erewrite add_metadata_entry_bad_dataset_type by done. simpl. eauto 10. }
  destruct (decide (itv ∈ VALID_META_INTERVALS)) as [Hitv|Hitv]; last first.
  { left. erewrite add_metadata_entry_bad_interval by done. simpl. eauto 10. }
  right. eauto 10.
Qed.

(** The run of a call that passes every check, for a name that has no row
    yet, with the stored row spelled out. *)
Lemma add_metadata_entry_success name descr value_columns itv dtype d w :
  name ≠ METADATA_DB_NAME →
  heap w !! value_columns = Some d →
  Forall alnum_name (dict_keys d) →
  Forall (λ v, valid_type v = true) (dict_values d) →
  dtype ∈ VALID_DATASET_TYPES →
  itv ∈ VALID_META_INTERVALS →
  ¬ registered name w →
  ∃ j, add_metadata_entry name descr value_columns itv dtype w
       = (Ok name,
          World (<[value_columns := store_valid d d]> (heap w))
            (Some (catalog_rows w
                   ++ [Row name descr
                         (DuckMap (dict_keys d)
                            (dict_values (store_valid d d))) itv dtype]))
            (connections w
             ++ [Connection (_get_db_path METADATA_DB_NAME) false])
            (journal w ++ j)).
Proof.
  intros Hname Hd Hn Hv Hdt Hitv Hfresh.
  rewrite <-Forall_clean_alnum in Hn. rewrite <-type_errors_nil_values in Hv.
  erewrite add_metadata_entry_persist by done.
  destruct (decide _) as [?|_]; [done|].
  rewrite store_valid_self_keys. eauto.
Qed.

(** ** Further lemmas on tables *)

Lemma filter_name_fresh name (rows : list row) r :
  name ∉ dataset_name <$> rows → dataset_name r = name →
  filter (λ r, row_name r = name) (rows ++ [r]) = [r].
Proof.
  intros Hn Hr. rewrite filter_app, filter_name_absent by done. simpl.
  rewrite filter_cons_True by done. by rewrite filter_nil.
Qed.

Lemma filter_name_count name (rows : list row) :
  NoDup (dataset_name <$> rows) →
  length (filter (λ r, row_name r = name) rows)
  = if decide (name ∈ dataset_name <$> rows) then 1 else 0.
Proof.
  induction rows as [|r rows IH]; intros Hnd.
  - destruct (decide _) as [Hin|_]; [by apply elem_of_nil in Hin|done].
  - rewrite fmap_cons in Hnd. apply NoDup_cons in Hnd as [Hr Hnd].
    rewrite filter_cons. unfold row_name at 1.
    destruct (decide (dataset_name r = name)) as [Hrn|Hne].
    + subst name. rewrite filter_name_absent by done.
      destruct (decide (dataset_name r ∈ dataset_name <$> r :: rows))
        as [_|Hout]; [reflexivity|].
      destruct Hout. apply elem_of_cons. by left.
    + rewrite IH by done.
      destruct (decide (name ∈ dataset_name <$> rows)) as [Hin|Hout];
        destruct (decide (name ∈ dataset_name <$> r :: rows)) as [Hin'|Hout'];
        try done.
      * destruct Hout'. apply elem_of_cons. by right.
      * rewrite fmap_cons, elem_of_cons in Hin'.
        destruct Hin' as [Heq|Hin']; [by destruct Hne|by destruct Hout].
Qed.

Lemma filter_name_head name (rows : list row) :
  name ∈ dataset_name <$> rows →
  ∃ r, head (filter (λ r, row_name r = name) rows) = Some r
       ∧ r ∈ rows ∧ dataset_name r = name.
Proof.
  induction rows as [|r rows IH]; intros Hin.
  - by apply elem_of_nil in Hin.
  - rewrite filter_cons. unfold row_name at 1.
    destruct (decide (dataset_name r = name)) as [Hr|Hne].
    + exists r. split; [done|]. split; [left|done].
    + rewrite fmap_cons in Hin. apply elem_of_cons in Hin as [?|Hin]; [congruence|].
      destruct (IH Hin) as (r' & Hh & Hr' & Hn). exists r'.
      split; [done|]. split; [by right|done].
Qed.

Lemma row_to_dict_id r : row_to_dict r = r.
Proof. by destruct r. Qed.

(** ** Properties *)

(** X1.  [_get_non_alphanum_chars] returns the characters of its argument
    that are not alphanumeric, each as often as it occurs and in the order
    of the argument; the result is empty exactly when every character of
    the argument is alphanumeric. *)
Theorem get_non_alphanum_chars_spec s :
  _get_non_alphanum_chars s = str_filter (λ c, negb (isalnum c)) s
  ∧ (_get_non_alphanum_chars s = "" ↔ str_forallb isalnum s = true).
Proof.
  split; [apply get_non_alphanum_chars_filter|].
  rewrite get_non_alphanum_chars_filter. apply str_filter_nil_forallb.
Qed.

(** X2.  A call of [add_metadata_entry] returns normally exactly when the
    name is not the reserved one, every column name is alphanumeric, every
    column type is valid, dataset type and interval are recognized, and the
    name has no row in the metadata table yet; what it then returns is the
    dataset name. *)
Theorem add_metadata_entry_succeeds_iff
    name descr value_columns itv dtype d w :
  heap w !! value_columns = Some d →
  ((∃ n, (add_metadata_entry name descr value_columns itv dtype w).1 = Ok n)
   ↔ name ≠ METADATA_DB_NAME
     ∧ Forall alnum_name (dict_keys d)
     ∧ Forall (λ v, valid_type v = true) (dict_values d)
     ∧ dtype ∈ VALID_DATASET_TYPES
     ∧ itv ∈ VALID_META_INTERVALS
     ∧ ¬ registered name w)
  ∧ ∀ n, (add_metadata_entry name descr value_columns itv dtype w).1 = Ok n
         → n = name.
Proof.
  intros Hd.
  assert (∀ n, (add_metadata_entry name descr value_columns itv dtype w).1 = Ok n
               → n = name
                 ∧ name ≠ METADATA_DB_NAME
                 ∧ Forall alnum_name (dict_keys d)
                 ∧ Forall (λ v, valid_type v = true) (dict_values d)
                 ∧ dtype ∈ VALID_DATASET_TYPES
                 ∧ itv ∈ VALID_META_INTERVALS
                 ∧ ¬ registered name w) as Hok.
  { intros n Hn.
    destruct (add_metadata_entry_cases name descr value_columns itv dtype w)
      as [(e & He & _)|(d' & Hd' & Hname & Hclean & Herr & Hdt & Hitv)].
    { congruence. }
    assert (d' = d) as -> by congruence.
    rewrite add_metadata_entry_persist with (d := d) in Hn by done.
    destruct (decide _) as [?|Hfresh] in Hn; [done|]. simpl in Hn.
    split; [congruence|]. split; [done|].
    split; [by apply Forall_clean_alnum|].
    split; [by apply type_errors_nil_values|]. done. }
  split; [split|].
  - intros [n Hn]. by apply Hok in Hn as (_ & ?).
  - intros (Hname & Hn & Hv & Hdt & Hitv & Hfresh).
    destruct (add_metadata_entry_success name descr value_columns itv dtype d w)
      as [j ->]; eauto.
  - intros n Hn. by apply Hok in Hn as (? & _).
Qed.

(** X3.  A call that passes every check, for a name that has no row yet:
    it returns the name; the metadata table, created if it was absent,
    gains one row at its end, with the column names of the caller's dict in
    their order, the canonical spelling of each type, and the description,
    interval and dataset type given; the caller's dict holds the canonical
    spellings. *)
Theorem add_metadata_entry_registers
    name descr value_columns itv dtype d w :
  name ≠ METADATA_DB_NAME →
  heap w !! value_columns = Some d →
  NoDup (dict_keys d) →
  Forall alnum_name (dict_keys d) →
  Forall (λ v, valid_type v = true) (dict_values d) →
  dtype ∈ VALID_DATASET_TYPES →
  itv ∈ VALID_META_INTERVALS →
  ¬ registered name w →
  let run := add_metadata_entry name descr value_columns itv dtype w in
  run.1 = Ok name
  ∧ table run.2
    = Some (catalog_rows w
            ++ [Row name descr
                  (DuckMap (dict_keys d)
                     (convert_to_cannonical_type <$> dict_values d))
                  itv dtype])
  ∧ heap run.2 !! value_columns
    = Some (zip (dict_keys d) (convert_to_cannonical_type <$> dict_values d)).
Proof.
  intros Hname Hd Hnd Hn Hv Hdt Hitv Hfresh run. subst run.
  destruct (add_metadata_entry_success name descr value_columns itv dtype d w)
    as [j ->]; [done..|]. simpl.
  rewrite store_valid_canonicalize, canonicalize_values by done.
  split; [done|]. split; [done|].
  by rewrite lookup_insert_eq, canonicalize_zip.
Qed.

(** X4.  A call that passes every check, for a name that already has a row,
    fails with [BgsAlreadyExistsException], whatever description, columns,
    interval and dataset type it comes with, and leaves the metadata table
    as it was. *)
Theorem add_metadata_entry_duplicate
    name descr value_columns itv dtype d w :
  name ≠ METADATA_DB_NAME →
  heap w !! value_columns = Some d →
  Forall alnum_name (dict_keys d) →
  Forall (λ v, valid_type v = true) (dict_values d) →
  dtype ∈ VALID_DATASET_TYPES →
  itv ∈ VALID_META_INTERVALS →
  registered name w →
  let run := add_metadata_entry name descr value_columns itv dtype w in
  (∃ cause, run.1 = Raise (BgsAlreadyExistsException
                             (already_exists_message name) cause))
  ∧ table run.2 = table w.
Proof.
  intros Hname Hd Hn Hv Hdt Hitv Hreg run. subst run.
  rewrite <-Forall_clean_alnum in Hn. rewrite <-type_errors_nil_values in Hv.
  erewrite add_metadata_entry_persist by done.
  destruct (decide _) as [_|?]; [|done]. simpl. split; [eauto|].
  unfold registered in Hreg. destruct (table w); [done|].
  by apply elem_of_nil in Hreg.
Qed.

(** X5.  What was registered can be read back: after a call of
    [add_metadata_entry] that passes every check, for a name that had no
    row, [get_ds_metadata] of that name returns the description, interval
    and dataset type given, the column names in the order of the caller's
    dict and the types in their canonical spelling. *)
Theorem get_ds_metadata_after_add
    name descr value_columns itv dtype d w :
  name ≠ METADATA_DB_NAME →
  heap w !! value_columns = Some d →
  NoDup (dict_keys d) →
  Forall alnum_name (dict_keys d) →
  Forall (λ v, valid_type v = true) (dict_values d) →
  dtype ∈ VALID_DATASET_TYPES →
  itv ∈ VALID_META_INTERVALS →
  ¬ registered name w →
  (get_ds_metadata name
     (add_metadata_entry name descr value_columns itv dtype w).2).1
  = Ok (Row name descr
          (DuckMap (dict_keys d)
             (convert_to_cannonical_type <$> dict_values d)) itv dtype).
Proof.
  intros Hname Hd Hnd Hn Hv Hdt Hitv Hfresh.
  destruct (add_metadata_entry_success name descr value_columns itv dtype d w)
    as [j ->]; [done..|].
  rewrite get_ds_metadata_run. simpl.
  rewrite filter_name_fresh by done. simpl.
  rewrite check_column_names_clean by (by apply Forall_clean_alnum). simpl.
  by rewrite store_valid_canonicalize, canonicalize_values.
Qed.

(** X6.  After a call of [add_metadata_entry] that passes every check, for
    a name that had no row, [ds_meta_exists] of that name returns true;
    before the call it returned false if the metadata table was there. *)
Theorem ds_meta_exists_after_add
    name descr value_columns itv dtype d w :
  name ≠ METADATA_DB_NAME →
  heap w !! value_columns = Some d →
  Forall alnum_name (dict_keys d) →
  Forall (λ v, valid_type v = true) (dict_values d) →
  dtype ∈ VALID_DATASET_TYPES →
  itv ∈ VALID_META_INTERVALS →
  ¬ registered name w →
  (ds_meta_exists name
     (add_metadata_entry name descr value_columns itv dtype w).2).1 = Ok true
  ∧ (is_Some (table w) → (ds_meta_exists name w).1 = Ok false).
Proof.
  intros Hname Hd Hn Hv Hdt Hitv Hfresh.
  destruct (add_metadata_entry_success name descr value_columns itv dtype d w)
    as [j ->]; [done..|].
  rewrite !ds_meta_exists_run. simpl. split.
  - by rewrite filter_name_fresh.
  - intros [rows Ht]. unfold registered in Hfresh. rewrite Ht in *. simpl.
    by rewrite filter_name_absent.
Qed.

(** X7.  After a call of [add_metadata_entry] that passes every check, for
    a name that had no row, [show_meta] lists the rows that were there, in
    their order, followed by the new one. *)
Theorem show_meta_after_add
    name descr value_columns itv dtype d w :
  name ≠ METADATA_DB_NAME →
  heap w !! value_columns = Some d →
  NoDup (dict_keys d) →
  Forall alnum_name (dict_keys d) →
  Forall (λ v, valid_type v = true) (dict_values d) →
  dtype ∈ VALID_DATASET_TYPES →
  itv ∈ VALID_META_INTERVALS →
  ¬ registered name w →
  (show_meta (add_metadata_entry name descr value_columns itv dtype w).2).1
  = Ok (catalog_rows w
        ++ [Row name descr
              (DuckMap (dict_keys d)
                 (convert_to_cannonical_type <$> dict_values d)) itv dtype]).
Proof.
  intros Hname Hd Hnd Hn Hv Hdt Hitv Hfresh.
  destruct (add_metadata_entry_success name descr value_columns itv dtype d w)
    as [j ->]; [done..|].
  rewrite show_meta_run. simpl.
  rewrite store_valid_canonicalize, canonicalize_values by done.
  f_equal. induction (_ ++ _) as [|r rows IH]; simpl; [done|].
  by rewrite row_to_dict_id, IH.
Qed.

(** X8.  [add_metadata_entry] only ever appends: after any call the rows
    that were in the metadata table are still there, unchanged and in
    their order, followed by at most one new row; a new row is there only
    when the call returned, and it carries the name, description, interval
    and dataset type of the call. *)
Theorem add_metadata_entry_appends name descr value_columns itv dtype w :
  let run := add_metadata_entry name descr value_columns itv dtype w in
  catalog_rows run.2 = catalog_rows w
  ∨ ∃ r, catalog_rows run.2 = catalog_rows w ++ [r]
         ∧ run.1 = Ok name
         ∧ dataset_name r = name ∧ description r = descr
         ∧ interval r = itv ∧ dataset_type r = dtype.
Proof.
  intros run. subst run.
  destruct (add_metadata_entry_cases name descr value_columns itv dtype w)
    as [(e & He & Hst & _)|(d & Hd & Hname & Hclean & Herr & Hdt & Hitv)].
  - left. unfold catalog_rows. by injection Hst as -> _ _.
  - erewrite add_metadata_entry_persist by done.
    destruct (decide _); [by left|]. right. eexists. by repeat split.
Qed.

(** X9.  [add_metadata_entry] keeps the dataset names of the metadata table
    distinct: if no two rows had the same name before a call, none have
    after it, whatever the call and its outcome. *)
Theorem add_metadata_entry_keeps_names_distinct
    name descr value_columns itv dtype w :
  NoDup (dataset_name <$> catalog_rows w) →
  NoDup (dataset_name <$>
           catalog_rows (add_metadata_entry name descr value_columns itv dtype w).2).
Proof.
  intros Hnd.
  destruct (add_metadata_entry_cases name descr value_columns itv dtype w)
    as [(e & He & Hst & _)|(d & Hd & Hname & Hclean & Herr & Hdt & Hitv)].
  - unfold catalog_rows in *. by injection Hst as -> _ _.
  - erewrite add_metadata_entry_persist by done.
    destruct (decide _) as [|Hfresh]; [done|]. unfold catalog_rows in *. simpl.
    rewrite fmap_app. apply NoDup_app. split; [done|]. split.
    + intros x Hx [->|Hin%elem_of_nil]%elem_of_cons; done.
    + apply NoDup_singleton.
Qed.

(** X10.  On a metadata table whose dataset names are distinct,
    [ds_meta_exists] returns true exactly for the names that have a row. *)
Theorem ds_meta_exists_iff_registered name rows w :
  table w = Some rows →
  NoDup (dataset_name <$> rows) →
  (ds_meta_exists name w).1 = Ok (bool_decide (name ∈ dataset_name <$> rows)).
Proof.
  intros Ht Hnd. rewrite ds_meta_exists_run, Ht. simpl.
  rewrite filter_name_count by done.
  destruct (decide _) as [Hin|Hout].
  - by rewrite bool_decide_eq_true_2.
  - by rewrite bool_decide_eq_false_2.
Qed.

(** X11.  [add_metadata_entry] stores only rows that went through its
    checks: if every row of the metadata table has a name that is not the
    reserved one, alphanumeric column names, as many types as columns, and
    a recognized dataset type and interval, this is so after any call. *)
Theorem add_metadata_entry_keeps_rows_well_formed
    name descr value_columns itv dtype w :
  Forall well_formed_row (catalog_rows w) →
  Forall well_formed_row
    (catalog_rows (add_metadata_entry name descr value_columns itv dtype w).2).
Proof.
  intros Hwf.
  destruct (add_metadata_entry_cases name descr value_columns itv dtype w)
    as [(e & He & Hst & _)|(d & Hd & Hname & Hclean & Herr & Hdt & Hitv)].
  - unfold catalog_rows in *. by injection Hst as -> _ _.
  - erewrite add_metadata_entry_persist by done.
    destruct (decide _) as [|Hfresh]; [done|]. unfold catalog_rows in *. simpl.
    apply Forall_app. split; [done|]. apply Forall_singleton.
    unfold well_formed_row. simpl.
    rewrite store_valid_self_keys. split; [done|].
    split; [by apply Forall_clean_alnum|].
    split; [|done]. rewrite <-(store_valid_self_keys d).
    unfold dict_keys, dict_values. by rewrite !length_fmap.
Qed.

(** X12.  On a metadata table whose rows are as [add_metadata_entry] stores
    them, [get_ds_metadata] of a name that has a row returns a row of the
    table with that name: the check on the column names made on reading
    does not fire. *)
Theorem get_ds_metadata_registered name w :
  Forall well_formed_row (catalog_rows w) →
  registered name w →
  ∃ r, (get_ds_metadata name w).1 = Ok r
       ∧ r ∈ catalog_rows w ∧ dataset_name r = name.
Proof.
  intros Hwf Hreg. unfold registered, catalog_rows in *.
  rewrite get_ds_metadata_run.
  destruct (table w) as [rows|]; [|by apply elem_of_nil in Hreg]. simpl in *.
  destruct (filter_name_head name rows Hreg) as (r & -> & Hin & Hr).
  exists r. rewrite Forall_forall in Hwf.
  destruct (Hwf r Hin) as (_ & Hkeys & _).
  rewrite check_column_names_clean by (by apply Forall_clean_alnum).
  by rewrite row_to_dict_id.
Qed.

(** X13.  The check [get_ds_metadata] makes on the row it read: if a column
    name of the row has a character that is not alphanumeric, the call
    fails with [InvalidCharacterException], naming the first such column
    and its characters that are not alphanumeric. *)
Theorem get_ds_metadata_bad_stored_name name rows r pre col_name post w :
  table w = Some rows →
  head (filter (λ r, row_name r = name) rows) = Some r →
  key (value_columns r) = pre ++ col_name :: post →
  Forall alnum_name pre →
  ¬ alnum_name col_name →
  (get_ds_metadata name w).1
  = Raise (InvalidCharacterException
             (invalid_character_message col_name
                (str_filter (λ c, negb (isalnum c)) col_name))).
Proof.
  intros Ht Hhead Hkeys Hpre Hbad.
  rewrite get_ds_metadata_run, Ht. simpl. rewrite Hhead, Hkeys.
  rewrite check_column_names_first.
  - by rewrite get_non_alphanum_chars_filter.
  - by apply Forall_clean_alnum.
  - by rewrite clean_name_alnum.
Qed.

(** X14.  [show_meta], [ds_meta_exists] and [get_ds_metadata] only read:
    whatever they return or raise, the metadata table and the objects of
    the caller are what they were; they do not create the table when it is
    absent. *)
Theorem read_operations_change_nothing name w :
  (table (show_meta w).2 = table w ∧ heap (show_meta w).2 = heap w)
  ∧ (table (ds_meta_exists name w).2 = table w
     ∧ heap (ds_meta_exists name w).2 = heap w)
  ∧ (table (get_ds_metadata name w).2 = table w
     ∧ heap (get_ds_metadata name w).2 = heap w).
Proof.
  rewrite show_meta_run, ds_meta_exists_run, get_ds_metadata_run.
  destruct (table w) as [rows|] eqn:Ht; simpl; [|by rewrite Ht].
  rewrite Ht. split; [done|]. split; [done|].
  destruct (head _) as [r|]; simpl; [|by rewrite Ht].
  pose proof (check_column_names_outcome (key (value_columns r))
    (after_read [CheckTableExists METADATA_TABLE_NAME; SelectByName name] w))
    as [Hw _].
  destruct (check_column_names _ _) as [[[]|e] w'']; simpl in *; subst w'';
    simpl; by rewrite Ht.
Qed.

(** X15.  [add_metadata_entry] leaves no connection open: after any call,
    returned or raised, the open connections are those that were open
    before it. *)
Theorem add_metadata_entry_leaves_no_connection_open
    name descr value_columns itv dtype w :
  open_connections (add_metadata_entry name descr value_columns itv dtype w).2
  = open_connections w.
Proof.
  unfold open_connections.
  destruct (add_metadata_entry_cases name descr value_columns itv dtype w)
    as [(e & He & Hst & _)|(d & Hd & Hname & Hclean & Herr & Hdt & Hitv)].
  - by injection Hst as _ -> _.
  - erewrite add_metadata_entry_persist by done.
    destruct (decide _); simpl; rewrite filter_app, filter_cons_False by done;
      by rewrite filter_nil, app_nil_r.
Qed.

(** X16.  Of the caller's objects [add_metadata_entry] touches only the
    dict it was given, and of that dict only the values: after any call
    every other object is unchanged, and the dict has the keys it had, in
    their order. *)
Theorem add_metadata_entry_keeps_keys name descr value_columns itv dtype w :
  let run := add_metadata_entry name descr value_columns itv dtype w in
  (∀ l, l ≠ value_columns → heap run.2 !! l = heap w !! l)
  ∧ dict_keys <$> heap run.2 !! value_columns
    = dict_keys <$> heap w !! value_columns.
Proof.
  intros run. subst run.
  assert (∀ d, heap w !! value_columns = Some d →
               (∀ l, l ≠ value_columns →
                     <[value_columns := store_valid d d]> (heap w) !! l
                     = heap w !! l)
               ∧ dict_keys <$> <[value_columns := store_valid d d]> (heap w)
                                 !! value_columns
                 = dict_keys <$> heap w !! value_columns) as Hins.
  { intros d Hd. split.
    - intros l Hl. by rewrite lookup_insert_ne.
    - rewrite lookup_insert_eq, Hd. simpl. by rewrite store_valid_self_keys. }
  destruct (add_metadata_entry_cases name descr value_columns itv dtype w)
    as [(e & He & _ & [->|(d & Hd & ->)])
       |(d & Hd & Hname & Hclean & Herr & Hdt & Hitv)]; [done|by apply Hins|].
  erewrite add_metadata_entry_persist by done.
  destruct (decide _); simpl; by apply Hins.
Qed.

End Properties.

(** * Properties of the client *)

Section ClientProperties.

Variable float : Type.
Variable port_type : Type.
Variable GEO_ENDPOINT_PREFIX : string.
Variable POINT_ENDPOINT_PREFIX : string.

Local Abbreviation show_cell_radius :=
  (show_cell_radius float port_type (request float port_type) Request
     GEO_ENDPOINT_PREFIX POINT_ENDPOINT_PREFIX).
Local Abbreviation show_cell_point :=
  (show_cell_point float port_type (request float port_type) Request
     GEO_ENDPOINT_PREFIX POINT_ENDPOINT_PREFIX).
Local Abbreviation show_latlong_radius :=
  (show_latlong_radius float port_type (request float port_type) Request
     GEO_ENDPOINT_PREFIX POINT_ENDPOINT_PREFIX).
Local Abbreviation show_latlong_point :=
  (show_latlong_point float port_type (request float port_type) Request
     GEO_ENDPOINT_PREFIX).
Local Abbreviation show_shapefile :=
  (show_shapefile float port_type (request float port_type) Request
     GEO_ENDPOINT_PREFIX POINT_ENDPOINT_PREFIX).

(** X17.  In the requests of [show_cell_radius] and [show_cell_point] the
    body has the key "year", "month" or "day" exactly when that argument is
    given, with the value given; no value of the body is [None]. *)
Theorem show_cell_optional_fields
    (self : CliExecGeospatial port_type) dataset cell (radius : float)
    year month day type :
  let body := req_obj (show_cell_radius self dataset cell radius
                         year month day type) in
  let body' := req_obj (show_cell_point self dataset cell year month day type) in
  (getitem "year" body = PyInt <$> year
   ∧ getitem "month" body = PyInt <$> month
   ∧ getitem "day" body = PyInt <$> day
   ∧ Forall (λ kv, kv.2 ≠ PyNone) body)
  ∧ (getitem "year" body' = PyInt <$> year
     ∧ getitem "month" body' = PyInt <$> month
     ∧ getitem "day" body' = PyInt <$> day
     ∧ Forall (λ kv, kv.2 ≠ PyNone) body').
Proof.
  destruct year, month, day; simpl;
    repeat split; repeat constructor; discriminate.
Qed.

(** X18.  In the request of [show_latlong_radius] the body always has the
    key "year": with the year given, or with [None] when no year is given.
    The keys "resolution", "month" and "day" are there exactly when those
    arguments are given. *)
Theorem show_latlong_radius_year_always_sent
    (self : CliExecGeospatial port_type) dataset
    (latitude longitude radius : float) resolution year month day type :
  let body := req_obj (show_latlong_radius self dataset latitude longitude
                         radius resolution year month day type) in
  getitem "year" body = Some (of_optional float year)
  ∧ getitem "resolution" body = PyInt <$> resolution
  ∧ getitem "month" body = PyInt <$> month
  ∧ getitem "day" body = PyInt <$> day.
Proof. by destruct resolution, year, month, day. Qed.

(** X19.  In the requests of [show_latlong_point] and [show_shapefile] the
    body has the year, and the keys "resolution" (for the former), "region"
    (for the latter), "month" and "day" exactly when those arguments are
    given; no value of the body is [None]. *)
Theorem show_point_and_shapefile_optional_fields
    (self : CliExecGeospatial port_type) dataset (latitude longitude : float)
    shapefile region resolution resolution' year month day type :
  let body := req_obj (show_latlong_point self dataset latitude longitude
                         resolution year month day) in
  let body' := req_obj (show_shapefile self dataset shapefile region
                          resolution' year month day type) in
  (getitem "year" body = Some (PyInt year)
   ∧ getitem "resolution" body = PyInt <$> resolution
   ∧ getitem "month" body = PyInt <$> month
   ∧ getitem "day" body = PyInt <$> day
   ∧ Forall (λ kv, kv.2 ≠ PyNone) body)
  ∧ (getitem "year" body' = Some (PyInt year)
     ∧ getitem "region" body' = PyStr <$> region
     ∧ getitem "month" body' = PyInt <$> month
     ∧ getitem "day" body' = PyInt <$> day
     ∧ Forall (λ kv, kv.2 ≠ PyNone) body').
Proof.
  destruct region, resolution, month, day; simpl;
    repeat split; repeat constructor; discriminate.
Qed.

End ClientProperties.

(** * Concrete runs of the properties *)

(** C1 as stated fails on the code.  With two column names that are not
    alphanumeric, the error names the first, "a-b", and says nothing of the
    second, "c d!"; and with the reserved dataset name the call does not
    fail with [InvalidCharacterException] at all. *)
Lemma add_metadata_entry_reports_first_bad_column_only :
  (sample_add_metadata_entry "temp" "d" 1%positive "yearly" "h3"
     (fresh_world two_bad_names)).1
  = Raise (InvalidCharacterException (invalid_character_message "a-b" "-"))
  ∧ str_contains "a-b" (invalid_character_message "a-b" "-") = true
  ∧ str_contains "c d!" (invalid_character_message "a-b" "-") = false
  ∧ ¬ alnum_name ascii_isalnum "c d!"
  ∧ (sample_add_metadata_entry METADATA_DB_NAME "d" 1%positive "yearly" "h3"
       (fresh_world two_bad_names)).1
    = Raise (Exception reserved_name_message).
Proof.
  split; [by vm_compute|]. split; [by vm_compute|]. split; [by vm_compute|].
  split; [vm_compute; discriminate|]. by vm_compute.
Qed.

Lemma add_metadata_entry_invalid_character_witness :
  sample_add_metadata_entry "temp" "d" 1%positive "yearly" "h3"
    (fresh_world two_bad_names)
  = (Raise (InvalidCharacterException (invalid_character_message "a-b" "-")),
     fresh_world two_bad_names).
Proof.
  apply (add_metadata_entry_invalid_character ascii_isalnum
           sample_is_general_col_type sample_convert_to_cannonical_type "/data"
           "temp" "d" 1%positive "yearly" "h3" two_bad_names
           [] "a-b" ["c d!"] (fresh_world two_bad_names)).
  - discriminate.
  - reflexivity.
  - reflexivity.
  - constructor.
  - vm_compute. discriminate.
Defined.

(** C2 as stated fails on the code.  With an interval and a dataset type
    that are both unrecognized, the error is the one for the dataset type,
    not the one for the interval. *)
Lemma add_metadata_entry_dataset_type_before_interval :
  (sample_add_metadata_entry "temp" "d" 1%positive "weekly" "grid"
     (fresh_world temp_columns)).1
  = Raise (InvalidArgumentException (dataset_type_message "grid"))
  ∧ (sample_add_metadata_entry "temp" "d" 1%positive "weekly" "grid"
       (fresh_world temp_columns)).1
    ≠ Raise (InvalidArgumentException (interval_message "weekly")).
Proof. split; [by vm_compute|]. vm_compute. discriminate. Qed.

Lemma add_metadata_entry_validation_order_witness :
  (sample_add_metadata_entry "temp" "d" 1%positive "weekly" "grid"
     (fresh_world temp_columns)).1
  = Raise (InvalidArgumentException (dataset_type_message "grid")).
Proof.
  destruct (add_metadata_entry_validation_order ascii_isalnum
              sample_is_general_col_type sample_convert_to_cannonical_type
              "/data" "temp" "d" 1%positive "weekly" "grid" temp_columns
              (fresh_world temp_columns) eq_refl) as (_ & _ & _ & H & _).
  apply H.
  - discriminate.
  - repeat constructor.
  - repeat constructor.
  - compute_done.
Defined.

(** C3 as stated fails on the code.  With the reserved dataset name, two
    invalid column types and alphanumeric column names, the call fails with
    the reserved-name error, not with [InvalidColumnTypeException]. *)
Lemma add_metadata_entry_reserved_name_before_types :
  Forall (alnum_name ascii_isalnum) (dict_keys two_bad_types)
  ∧ length (filter (λ kv, valid_type sample_is_general_col_type kv.2 = false)
              two_bad_types) = 2
  ∧ (sample_add_metadata_entry METADATA_DB_NAME "d" 1%positive "yearly" "h3"
       (fresh_world two_bad_types)).1
    = Raise (Exception reserved_name_message).
Proof. split; [repeat constructor|]. by vm_compute. Qed.

Lemma add_metadata_entry_collects_type_errors_witness :
  (sample_add_metadata_entry "temp" "d" 1%positive "yearly" "h3"
     (fresh_world two_bad_types)).1
  = Raise (InvalidColumnTypeException
             [column_error_message "n" "type number is not a general column type";
              column_error_message "flag" "type bit is not a general column type"])
  ∧ storage (sample_add_metadata_entry "temp" "d" 1%positive "yearly" "h3"
               (fresh_world two_bad_types)).2
    = storage (fresh_world two_bad_types).
Proof.
  apply (add_metadata_entry_collects_type_errors ascii_isalnum
           sample_is_general_col_type sample_convert_to_cannonical_type "/data"
           "temp" "d" 1%positive "yearly" "h3" two_bad_types
           (fresh_world two_bad_types)).
  - discriminate.
  - reflexivity.
  - repeat constructor.
  - apply Exists_cons_tl, Exists_cons_hd. reflexivity.
Defined.

Lemma add_metadata_entry_validation_before_storage_witness :
  storage (sample_add_metadata_entry "temp" "d" 1%positive "weekly" "h3"
             (fresh_world temp_columns)).2
  = (None, [], []).
Proof.
  apply (add_metadata_entry_validation_before_storage ascii_isalnum
           sample_is_general_col_type sample_convert_to_cannonical_type "/data"
           "temp" "d" 1%positive "weekly" "h3" (fresh_world temp_columns)
           (InvalidArgumentException (interval_message "weekly"))).
  - vm_compute. reflexivity.
  - reflexivity.
Defined.

Lemma add_metadata_entry_twice_witness :
  let run1 := sample_add_metadata_entry "temp" "first" 1%positive "yearly" "h3"
                (fresh_world temp_columns) in
  let run2 := sample_add_metadata_entry "temp" "second" 1%positive "daily" "point"
                run1.2 in
  run1.1 = Ok "temp"
  ∧ (∃ msg, run2.1 = Raise (BgsAlreadyExistsException
                               (already_exists_message "temp")
                               (ConstraintException msg)))
  ∧ table run2.2 = table run1.2
  ∧ ∃ rows r, table run2.2 = Some rows
              ∧ filter (λ r, row_name r = "temp") rows = [r]
              ∧ description r = "first"
              ∧ interval r = "yearly"
              ∧ dataset_type r = "h3".
Proof.
  apply (add_metadata_entry_twice ascii_isalnum
           sample_is_general_col_type sample_convert_to_cannonical_type "/data"
           "temp" "first" 1%positive "yearly" "h3"
           "second" 1%positive "daily" "point" (fresh_world temp_columns)).
  - vm_compute. apply not_elem_of_nil.
  - split; [discriminate|]. exists temp_columns.
    split; [reflexivity|]. split; [repeat constructor|].
    split; [repeat constructor|]. split; compute_done.
  - split; [discriminate|]. exists [("avg", "FLOAT"); ("n", "INTEGER")].
    split; [vm_compute; reflexivity|]. split; [repeat constructor|].
    split; [repeat constructor|]. split; compute_done.
Defined.

Lemma get_ds_metadata_unregistered_witness :
  sample_get_ds_metadata "rain" temp_world
  = (Raise (TypeError "'NoneType' object is not subscriptable"),
     World ∅ (Some [temp_row])
       [Connection "/data/dataset_metadata.duckdb" false;
        Connection "/data/dataset_metadata.duckdb" true]
       [(0, CheckTableExists "dataset_metadata");
        (0, CreateTable "dataset_metadata");
        (0, InsertRow temp_row);
        (1, CheckTableExists "dataset_metadata");
        (1, SelectByName "rain")]).
Proof.
  apply (get_ds_metadata_unregistered ascii_isalnum "/data" "rain" [temp_row]
           temp_world).
  - reflexivity.
  - compute_done.
Defined.

Lemma add_metadata_entry_canonicalizes_in_place_witness :
  heap (sample_add_metadata_entry "temp" "d" 1%positive "yearly" "h3"
          (fresh_world two_bad_types)).2
  = <[1%positive := [("avg", "FLOAT"); ("n", "number"); ("flag", "bit")]]>
      (heap (fresh_world two_bad_types))
  ∧ ∃ col_errors,
      (sample_add_metadata_entry "temp" "d" 1%positive "yearly" "h3"
         (fresh_world two_bad_types)).1
      = Raise (InvalidColumnTypeException col_errors).
Proof.
  destruct (add_metadata_entry_canonicalizes_in_place ascii_isalnum
              sample_is_general_col_type sample_convert_to_cannonical_type
              "/data" "temp" "d" 1%positive "yearly" "h3" two_bad_types
              (fresh_world two_bad_types)) as [Hheap Hraise].
  - discriminate.
  - reflexivity.
  - compute_done.
  - repeat constructor.
  - split; [exact Hheap|]. apply Hraise.
    apply Exists_cons_tl, Exists_cons_hd. reflexivity.
Defined.

Lemma ds_meta_exists_spec_witness :
  (sample_ds_meta_exists "temp" (fresh_world [])).1
  = Raise (Exception "dataset_metadata table does not exist in database /data/dataset_metadata.duckdb")
  ∧ ∃ b, (sample_ds_meta_exists "temp" temp_world).1 = Ok b
         ∧ (b = true
            ↔ length (filter (λ r, row_name r = "temp") [temp_row]) = 1).
Proof.
  split.
  - apply (ds_meta_exists_spec "/data" "temp" (fresh_world [])). reflexivity.
  - apply (ds_meta_exists_spec "/data" "temp" temp_world). reflexivity.
Defined.

(** * Concrete runs of the further properties *)

Lemma add_metadata_entry_succeeds_iff_witness :
  ∃ n, (sample_add_metadata_entry "rain" "rainfall" 1%positive "monthly" "point"
          rain_world).1 = Ok n.
Proof.
  destruct (add_metadata_entry_succeeds_iff ascii_isalnum
              sample_is_general_col_type sample_convert_to_cannonical_type
              "/data" "rain" "rainfall" 1%positive "monthly" "point"
              rain_columns rain_world eq_refl) as [[_ Hok] _].
  apply Hok. split; [discriminate|]. split; [repeat constructor|].
  split; [repeat constructor|]. split; [compute_done|].
  split; [compute_done|]. unfold registered. compute_done.
Defined.

Lemma add_metadata_entry_registers_witness :
  let run := sample_add_metadata_entry "rain" "rainfall" 1%positive "monthly"
               "point" rain_world in
  run.1 = Ok "rain"
  ∧ table run.2
    = Some [temp_row;
            Row "rain" "rainfall" (DuckMap ["mm"; "days"] ["DOUBLE"; "INTEGER"])
                "monthly" "point"]
  ∧ heap run.2 !! 1%positive = Some [("mm", "DOUBLE"); ("days", "INTEGER")].
Proof.
  apply (add_metadata_entry_registers ascii_isalnum
           sample_is_general_col_type sample_convert_to_cannonical_type "/data"
           "rain" "rainfall" 1%positive "monthly" "point" rain_columns
           rain_world).
  - discriminate.
  - reflexivity.
  - compute_done.
  - repeat constructor.
  - repeat constructor.
  - compute_done.
  - compute_done.
  - unfold registered. compute_done.
Defined.

Lemma add_metadata_entry_duplicate_witness :
  let run := sample_add_metadata_entry "temp" "again" 1%positive "daily" "point"
               rain_world in
  (∃ cause, run.1 = Raise (BgsAlreadyExistsException
                             (already_exists_message "temp") cause))
  ∧ table run.2 = Some [temp_row].
Proof.
  apply (add_metadata_entry_duplicate ascii_isalnum
           sample_is_general_col_type sample_convert_to_cannonical_type "/data"
           "temp" "again" 1%positive "daily" "point" rain_columns rain_world).
  - discriminate.
  - reflexivity.
  - repeat constructor.
  - repeat constructor.
  - compute_done.
  - compute_done.
  - unfold registered. compute_done.
Defined.

Lemma get_ds_metadata_after_add_witness :
  (sample_get_ds_metadata "rain"
     (sample_add_metadata_entry "rain" "rainfall" 1%positive "monthly" "point"
        rain_world).2).1
  = Ok (Row "rain" "rainfall" (DuckMap ["mm"; "days"] ["DOUBLE"; "INTEGER"])
            "monthly" "point").
Proof.
  apply (get_ds_metadata_after_add ascii_isalnum
           sample_is_general_col_type sample_convert_to_cannonical_type "/data"
           "rain" "rainfall" 1%positive "monthly" "point" rain_columns
           rain_world).
  - discriminate.
  - reflexivity.
  - compute_done.
  - repeat constructor.
  - repeat constructor.
  - compute_done.
  - compute_done.
  - unfold registered. compute_done.
Defined.

Lemma ds_meta_exists_after_add_witness :
  (sample_ds_meta_exists "rain"
     (sample_add_metadata_entry "rain" "rainfall" 1%positive "monthly" "point"
        rain_world).2).1 = Ok true
  ∧ (sample_ds_meta_exists "rain" rain_world).1 = Ok false.
Proof.
  destruct (ds_meta_exists_after_add ascii_isalnum
              sample_is_general_col_type sample_convert_to_cannonical_type
              "/data" "rain" "rainfall" 1%positive "monthly" "point"
              rain_columns rain_world) as [Hafter Hbefore].
  - discriminate.
  - reflexivity.
  - repeat constructor.
  - repeat constructor.
  - compute_done.
  - compute_done.
  - unfold registered. compute_done.
  - split; [exact Hafter|]. apply Hbefore. by eexists.
Defined.

Lemma show_meta_after_add_witness :
  (sample_show_meta
     (sample_add_metadata_entry "rain" "rainfall" 1%positive "monthly" "point"
        rain_world).2).1
  = Ok [temp_row;
        Row "rain" "rainfall" (DuckMap ["mm"; "days"] ["DOUBLE"; "INTEGER"])
            "monthly" "point"].
Proof.
  apply (show_meta_after_add ascii_isalnum
           sample_is_general_col_type sample_convert_to_cannonical_type "/data"
           "rain" "rainfall" 1%positive "monthly" "point" rain_columns
           rain_world).
  - discriminate.
  - reflexivity.
  - compute_done.
  - repeat constructor.
  - repeat constructor.
  - compute_done.
  - compute_done.
  - unfold registered. compute_done.
Defined.

Lemma add_metadata_entry_keeps_names_distinct_witness :
  NoDup (dataset_name <$>
           catalog_rows (sample_add_metadata_entry "rain" "rainfall" 1%positive
                           "monthly" "point" rain_world).2).
Proof.
  apply (add_metadata_entry_keeps_names_distinct ascii_isalnum
           sample_is_general_col_type sample_convert_to_cannonical_type "/data"
           "rain" "rainfall" 1%positive "monthly" "point" rain_world).
  compute_done.
Defined.

Lemma ds_meta_exists_iff_registered_witness :
  (sample_ds_meta_exists "temp" temp_world).1 = Ok true
  ∧ (sample_ds_meta_exists "rain" temp_world).1 = Ok false.
Proof.
  split.
  - apply (ds_meta_exists_iff_registered "/data" "temp" [temp_row] temp_world).
    + reflexivity.
    + compute_done.
  - apply (ds_meta_exists_iff_registered "/data" "rain" [temp_row] temp_world).
    + reflexivity.
    + compute_done.
Defined.

Lemma add_metadata_entry_keeps_rows_well_formed_witness :
  Forall (well_formed_row ascii_isalnum)
    (catalog_rows (sample_add_metadata_entry "rain" "rainfall" 1%positive
                     "monthly" "point" rain_world).2).
Proof.
  apply (add_metadata_entry_keeps_rows_well_formed ascii_isalnum
           sample_is_general_col_type sample_convert_to_cannonical_type "/data"
           "rain" "rainfall" 1%positive "monthly" "point" rain_world).
  apply Forall_singleton. split; [discriminate|].
  split; [repeat constructor|]. split; [reflexivity|]. split; compute_done.
Defined.

Lemma get_ds_metadata_registered_witness :
  ∃ r, (sample_get_ds_metadata "temp" temp_world).1 = Ok r
       ∧ r ∈ catalog_rows temp_world ∧ dataset_name r = "temp".
Proof.
  apply (get_ds_metadata_registered ascii_isalnum "/data" "temp" temp_world).
  - apply Forall_singleton. split; [discriminate|].
    split; [repeat constructor|]. split; [reflexivity|]. split; compute_done.
  - unfold registered. compute_done.
Defined.

Lemma get_ds_metadata_bad_stored_name_witness :
  (sample_get_ds_metadata "wind" damaged_world).1
  = Raise (InvalidCharacterException (invalid_character_message "dir-deg" "-")).
Proof.
  apply (get_ds_metadata_bad_stored_name ascii_isalnum "/data" "wind"
           [temp_row; damaged_row] damaged_row ["speed"] "dir-deg" []
           damaged_world).
  - reflexivity.
  - reflexivity.
  - reflexivity.
  - repeat constructor.
  - vm_compute. discriminate.
Defined.

Lemma add_metadata_entry_keeps_keys_witness :
  dict_keys <$> heap (sample_add_metadata_entry "temp" "d" 1%positive "yearly"
                        "h3" (fresh_world two_bad_types)).2 !! 1%positive
  = Some ["avg"; "n"; "flag"]
  ∧ heap (sample_add_metadata_entry "temp" "d" 1%positive "yearly" "h3"
            (fresh_world two_bad_types)).2 !! 2%positive = None.
Proof.
  destruct (add_metadata_entry_keeps_keys ascii_isalnum
              sample_is_general_col_type sample_convert_to_cannonical_type
              "/data" "temp" "d" 1%positive "yearly" "h3"
              (fresh_world two_bad_types)) as [Hother Hkeys].
  split; [exact Hkeys|]. apply Hother. discriminate.
Defined.
